(** * Inventory management for a B2B platform: product creation and low-stock alerts

    A shallow embedding of the two request handlers of the repository,
    [create_product] (Part 1) and [low_stock_alerts] (Part 3), over an explicit
    model of the relational store they talk to, and the properties of the
    written specification that concern them. *)

From Stdlib Require Import List ZArith QArith Qround String Bool Lia.
Import ListNotations.
Set Warnings "-register-all".
Local Open Scope string_scope.
Local Open Scope list_scope.
Local Open Scope Z_scope.

(** ** Python values reaching the handlers *)

(** The body of a request as [request.json] hands it over.  A JSON number
    with a fraction or an exponent is a Python float; the handlers never
    compute with one, so it is kept as the text Python prints for it, which
    is what [str] returns. *)
Inductive json : Type :=
| JNull
| JBool (b : bool)
| JInt (n : Z)
| JFloat (repr : string)
| JStr (s : string)
| JList (items : list json)
| JDict (entries : list (string * json)).

(** A value of [decimal.Decimal]: sign, coefficient and exponent, or one of
    the special values. *)
Inductive Decimal : Type :=
| Dfinite (negative : bool) (coefficient : N) (exponent : Z)
| Dinfinite (negative : bool)
| Dnan (negative signaling : bool) (payload : N).

(** The constraints of the store whose violation it reports as an
    [IntegrityError]. *)
Inductive violation : Type :=
| duplicate_sku
| missing_reference
| duplicate_stock.

(** The exceptions that can travel through the handlers: two of Python's
    own, the [IntegrityError] of the store, any other error of the store
    or its driver, and the error of the session when the row of an object it
    has to load again is gone. *)
Inductive exn : Type :=
| TypeError (msg : string)
| KeyError (key : string)
| IntegrityError (v : violation)
| DBAPIError (msg : string)
| ObjectDeletedError.

Definition str_violation (v : violation) : string :=
  match v with
  | duplicate_sku => "UNIQUE constraint failed: product.sku"
  | missing_reference => "FOREIGN KEY constraint failed"
  | duplicate_stock => "UNIQUE constraint failed: inventory.product_id, inventory.warehouse_id"
  end.

Definition str_exn (e : exn) : string :=
  match e with
  | TypeError m | KeyError m | DBAPIError m => m
  | IntegrityError v => str_violation v
  | ObjectDeletedError => "Instance has been deleted, or its row is otherwise not present."
  end.

Inductive res (A : Type) : Type :=
| Ok (a : A)
| Raise (e : exn).
Arguments Ok {A} a.
Arguments Raise {A} e.

(** Truth value of a Python object, as [request.json or {}] tests it. *)
Definition truthy (v : json) : bool :=
  match v with
  | JNull => false
  | JBool b => b
  | JInt n => negb (n =? 0)
  | JFloat l => negb (String.eqb l "0.0" || String.eqb l "-0.0")
  | JStr s => negb (String.eqb s "")
  | JList l => match l with [] => false | _ => true end
  | JDict l => match l with [] => false | _ => true end
  end.

(** The value a dict holds under a key; a dict holds a key once, and the
    entries are searched from the front. *)
Fixpoint dict_get (key : string) (entries : list (string * json)) : option json :=
  match entries with
  | [] => None
  | (k, v) :: rest => if String.eqb k key then Some v else dict_get key rest
  end.

Definition is_str (key : string) (v : json) : bool :=
  match v with
  | JStr s => String.eqb s key
  | _ => false
  end.

(** [key in container] for a string [key]: membership among the keys of a
    dict, among the elements of a list, as a substring of a string, and a
    [TypeError] for anything that is not a container. *)
Definition py_in (key : string) (container : json) : res bool :=
  match container with
  | JDict entries => Ok (match dict_get key entries with Some _ => true | None => false end)
  | JList items => Ok (existsb (is_str key) items)
  | JStr s => Ok (match String.index 0 key s with Some _ => true | None => false end)
  | _ => Raise (TypeError "argument is not iterable")
  end.

(** [container[key]] for a string [key]. *)
Definition py_getitem (container : json) (key : string) : res json :=
  match container with
  | JDict entries =>
      match dict_get key entries with
      | Some v => Ok v
      | None => Raise (KeyError key)
      end
  | JStr _ => Raise (TypeError "string indices must be integers")
  | JList _ => Raise (TypeError "list indices must be integers or slices, not str")
  | _ => Raise (TypeError "object is not subscriptable")
  end.

(** [isinstance(v, int)]: Python's [bool] is a subclass of [int]. *)
Definition isinstance_int (v : json) : bool :=
  match v with
  | JInt _ | JBool _ => true
  | _ => false
  end.

(** The integer an [int] instance stands for ([True] is 1, [False] is 0). *)
Definition int_value (v : json) : option Z :=
  match v with
  | JInt n => Some n
  | JBool b => Some (Z.b2z b)
  | _ => None
  end.

(** ** The relational store *)

(** Modelled from the spec: the SQLAlchemy model classes ([Product],
    [Inventory], [Warehouse], [Supplier], [InventoryChange]) are referred to
    by both handlers but declared in neither; the columns are the attributes
    the handlers read and write, typed as the data model of the
    specification gives them, nullable where a handler tests for [None] or
    leaves the column unset on insertion.  The key of an inventory row is
    named [Inventory.id] by the main query and [Inventory.inventory_id] by
    its subquery; the data model gives the row one identifying attribute,
    so the two names are read as that one column. *)
Record Product : Type := mkProduct {
  product_id : Z;
  product_name : string;
  product_sku : string;
  product_price : option Decimal;
  low_stock_thresh : option Z;
  supplier_ref : option Z
}.

Record Inventory : Type := mkInventory {
  inventory_id : Z;
  inv_product_id : Z;
  inv_warehouse_id : Z;
  quantity : option Z
}.

Record Warehouse : Type := mkWarehouse {
  warehouse_id : Z;
  warehouse_company : Z;
  warehouse_name : string
}.

Record Supplier : Type := mkSupplier {
  supplier_id : Z;
  supplier_name : string;
  contact_email : string
}.

Record InventoryChange : Type := mkInventoryChange {
  change_id : Z;
  change_inventory_id : Z;
  quantity_delta : Z;
  change_type : string;
  occurred_at : Z
}.

Record DB : Type := mkDB {
  products : list Product;
  inventory : list Inventory;
  warehouses : list Warehouse;
  suppliers : list Supplier;
  inventory_changes : list InventoryChange
}.

Definition with_products (d : DB) (ps : list Product) : DB :=
  mkDB ps (inventory d) (warehouses d) (suppliers d) (inventory_changes d).

Definition with_inventory (d : DB) (rows : list Inventory) : DB :=
  mkDB (products d) rows (warehouses d) (suppliers d) (inventory_changes d).

(** ** The session: one unit of work against the store *)

(** An object handed to [db.session.add] and not yet written. *)
Inductive pending_object : Type :=
| NewProduct (name sku : json) (price : Decimal)
| NewInventory (product : Z) (warehouse quantity : json).

(** What the store sees of a request, and how it answers: a statement is
    either carried out or refused with an error. *)
Inductive statement : Type :=
| SELECT_product
| SELECT_product_by_id
| INSERT_product
| INSERT_inventory
| COMMIT
| ROLLBACK.

Inductive event : Type :=
| Done (st : statement)
| Refused (st : statement) (e : exn).

(** Modelled from the spec: [db.session] and the transaction engine behind
    it are not part of the sources.  [committed] is the durable state every
    observer sees; [transaction] is the working copy of the open
    transaction, [None] when none has written yet; [pending] are the objects
    added and not yet flushed; [trace] records every statement sent to the
    store with its outcome, oldest first. *)
Record Session : Type := mkSession {
  committed : DB;
  transaction : option DB;
  pending : list pending_object;
  trace : list event
}.

Definition new_session (d : DB) : Session := mkSession d None [] [].

Definition view (s : Session) : DB :=
  match transaction s with
  | Some w => w
  | None => committed s
  end.

(** Computations on a session that may raise. *)
Definition M (A : Type) : Type := Session -> res A * Session.

Definition ret {A} (a : A) : M A := fun s => (Ok a, s).

Definition bind {A B} (c : M A) (k : A -> M B) : M B :=
  fun s =>
    match c s with
    | (Ok a, s') => k a s'
    | (Raise e, s') => (Raise e, s')
    end.

Definition raise {A} (e : exn) : M A := fun s => (Raise e, s).

Definition lift {A} (r : res A) : M A := fun s => (r, s).

(** [try: body except ...: handler]. *)
Definition try_except {A} (body : M A) (handler : exn -> M A) : M A :=
  fun s =>
    match body s with
    | (Ok a, s') => (Ok a, s')
    | (Raise e, s') => handler e s'
    end.

Declare Scope session_scope.
Delimit Scope session_scope with session.
Notation "x <- c ;; k" := (bind c (fun x => k))
  (at level 61, c at next level, right associativity) : session_scope.
Notation "c ;;; k" := (bind c (fun _ => k))
  (at level 61, right associativity) : session_scope.
Local Open Scope session_scope.

Definition record (ev : event) : M unit :=
  fun s => (Ok tt, mkSession (committed s) (transaction s) (pending s) (trace s ++ [ev])).

(** Modelled from the spec: how a Python value is bound to a text column
    (name, SKU) or to an integer column (warehouse, quantity), the column
    types being those of the data model.  The interface of the
    specification gives a string for the name and for the SKU and an integer
    for the warehouse and for the quantity: a string goes to a text column,
    and an [int] instance to an integer column when it is in the range of a
    signed integer of 64 bits.  What becomes of a value of another type is
    not the same with every store and driver (it is converted, stored as it
    is, or refused); the reading taken here is the strictest one, in which
    the driver refuses it, as it refuses an integer out of range, with an
    error that is not an integrity error. *)
Definition bind_text (v : json) : option string :=
  match v with
  | JStr s => Some s
  | _ => None
  end.

Definition fits_integer_column (n : Z) : bool := (- 2 ^ 63 <=? n) && (n <? 2 ^ 63).

Definition bind_integer (v : json) : res Z :=
  match int_value v with
  | Some n =>
      if fits_integer_column n then Ok n
      else Raise (DBAPIError "integer out of range")
  | None => Raise (DBAPIError "unsupported parameter type")
  end.

Definition next_id {A} (key : A -> Z) (rows : list A) : Z :=
  fold_right Z.max 0 (map key rows) + 1.

Definition sku_taken (sku : string) (d : DB) : bool :=
  existsb (fun p => String.eqb (product_sku p) sku) (products d).

Definition warehouse_exists (wid : Z) (d : DB) : bool :=
  existsb (fun w => warehouse_id w =? wid) (warehouses d).

Definition product_exists (pid : Z) (d : DB) : bool :=
  existsb (fun p => product_id p =? pid) (products d).

Definition stocked (pid wid : Z) (d : DB) : bool :=
  existsb (fun i => (inv_product_id i =? pid) && (inv_warehouse_id i =? wid)) (inventory d).

(** Modelled from the spec: one INSERT inside the open transaction.  The
    values are bound to their columns first; then the store enforces the
    uniqueness of the SKU, the references of an inventory row to its
    product and its warehouse, and one row per (product, warehouse) pair;
    the result is the working copy with the row and the key given to it.
    The key is one more than the greatest key of the table, which is one
    way of giving a key that the table does not have yet. *)
Definition insert_object (o : pending_object) (w : DB) : res (DB * Z) :=
  match o with
  | NewProduct name sku price =>
      match bind_text name, bind_text sku with
      | Some n, Some k =>
          if sku_taken k w
          then Raise (IntegrityError duplicate_sku)
          else
            let pid := next_id product_id (products w) in
            Ok (with_products w (products w ++ [mkProduct pid n k (Some price) None None]), pid)
      | _, _ => Raise (DBAPIError "unsupported parameter type")
      end
  | NewInventory pid wid qty =>
      match bind_integer wid, bind_integer qty with
      | Ok wh, Ok q =>
          if negb (product_exists pid w) || negb (warehouse_exists wh w)
          then Raise (IntegrityError missing_reference)
          else if stocked pid wh w
          then Raise (IntegrityError duplicate_stock)
          else
            let iid := next_id inventory_id (inventory w) in
            Ok (with_inventory w (inventory w ++ [mkInventory iid pid wh (Some q)]), iid)
      | Raise e, _ => Raise e
      | Ok _, Raise e => Raise e
      end
  end.

Definition statement_of (o : pending_object) : statement :=
  match o with
  | NewProduct _ _ _ => INSERT_product
  | NewInventory _ _ _ => INSERT_inventory
  end.

(** [db.session.add] and [db.session.add_all]: no statement is sent. *)
Definition add (o : pending_object) : M unit :=
  fun s => (Ok tt, mkSession (committed s) (transaction s) (pending s ++ [o]) (trace s)).

Definition add_all (os : list pending_object) : M unit :=
  fun s => (Ok tt, mkSession (committed s) (transaction s) (pending s ++ os) (trace s)).

(** Writing the pending objects, in the order they were added; the keys the
    store gave them are returned in that order.  A refused INSERT raises and
    leaves the rows written before it in the working copy. *)
Fixpoint flush_objects (os : list pending_object) : M (list Z) :=
  match os with
  | [] => ret []
  | o :: rest =>
      fun s =>
        match insert_object o (view s) with
        | Ok (w, key) =>
            bind (flush_objects rest) (fun keys => ret (key :: keys))
              (mkSession (committed s) (Some w) rest (trace s ++ [Done (statement_of o)]))
        | Raise e =>
            (Raise e,
             mkSession (committed s) (transaction s) (pending s)
               (trace s ++ [Refused (statement_of o) e]))
        end
  end.

(** [db.session.flush]. *)
Definition flush : M (list Z) := fun s => flush_objects (pending s) s.

(** [db.session.commit]: flush, then make the working copy durable. *)
Definition commit : M unit :=
  flush ;;;
  fun s => (Ok tt, mkSession (view s) None [] (trace s ++ [Done COMMIT])).

(** [db.session.rollback]: the working copy and the pending objects are
    dropped. *)
Definition rollback : M unit :=
  fun s => (Ok tt, mkSession (committed s) None [] (trace s ++ [Done ROLLBACK])).

(** [Product.query.filter_by(sku=...).first()]. *)
Definition first_product_by_sku (sku : json) : M (option Product) :=
  match bind_text sku with
  | Some k =>
      record (Done SELECT_product) ;;;
      fun s => (Ok (find (fun p => String.eqb (product_sku p) k) (products (view s))), s)
  | None =>
      let e := DBAPIError "unsupported parameter type" in
      record (Refused SELECT_product e) ;;; raise e
  end.

(** An attribute of an object read after [db.session.commit]: the commit
    has expired the object, so the session loads its row again, by the key
    the object was given, and the attribute is read off that row. *)
Definition load_product_id (pid : Z) : M Z :=
  record (Done SELECT_product_by_id) ;;;
  fun s =>
    match find (fun p => product_id p =? pid) (products (view s)) with
    | Some p => (Ok (product_id p), s)
    | None => (Raise ObjectDeletedError, s)
    end.

(** What the sessions of other requests commit while this one is between
    two of its statements: the durable state moves, the session does not. *)
Definition interleave (others : DB -> DB) : M unit :=
  fun s => (Ok tt, mkSession (others (committed s)) (transaction s) (pending s) (trace s)).

(** ** Part 1: [create_product] *)

(** The JSON body of a response, with its status code. *)
Inductive body : Type :=
| Error (error : string)
| Created (message : string) (product_id : Z).

Definition response : Type := (body * Z)%type.

Definition required_fields : list string :=
  ["name"; "sku"; "price"; "warehouse_quantities"].

(** The loop over [required_fields]: the first field that is not in [data],
    if there is one. *)
Fixpoint first_missing (data : json) (fields : list string) : res (option string) :=
  match fields with
  | [] => Ok None
  | field :: rest =>
      match py_in field data with
      | Ok true => first_missing data rest
      | Ok false => Ok (Some field)
      | Raise e => Raise e
      end
  end.

(** The test of the loop over [warehouse_quantities]: the entry is not a
    dict, or lacks one of the two keys, or its quantity is not an [int]
    instance, or is negative. *)
Definition entry_rejected (w : json) : bool :=
  match w with
  | JDict entries =>
      match dict_get "warehouse_id" entries, dict_get "quantity" entries with
      | Some _, Some q =>
          negb (isinstance_int q)
          || match int_value q with Some n => n <? 0 | None => false end
      | _, _ => true
      end
  | _ => true
  end.

(** [Inventory(product_id=product.id, warehouse_id=wq['warehouse_id'],
    quantity=wq['quantity'])]. *)
Definition inventory_entry (pid : Z) (wq : json) : res pending_object :=
  match py_getitem wq "warehouse_id" with
  | Ok wid =>
      match py_getitem wq "quantity" with
      | Ok q => Ok (NewInventory pid wid q)
      | Raise e => Raise e
      end
  | Raise e => Raise e
  end.

Fixpoint inventory_entries (pid : Z) (wqs : list json) : res (list pending_object) :=
  match wqs with
  | [] => Ok []
  | wq :: rest =>
      match inventory_entry pid wq with
      | Ok o =>
          match inventory_entries pid rest with
          | Ok os => Ok (o :: os)
          | Raise e => Raise e
          end
      | Raise e => Raise e
      end
  end.

(** The body of the [try] block: the product is added and flushed to learn
    its key, the inventory rows are added, and everything is committed at
    once.  The key of the product is the result. *)
Definition write_product (data : json) (price : Decimal) (warehouse_quantities : list json) : M Z :=
  name <- lift (py_getitem data "name") ;;
  sku <- lift (py_getitem data "sku") ;;
  add (NewProduct name sku price) ;;;
  keys <- flush ;;
  let pid := hd 0 keys in
  entries <- lift (inventory_entries pid warehouse_quantities) ;;
  add_all entries ;;;
  commit ;;;
  ret pid.

Definition integrity_message : string :=
  "Database error, possibly invalid warehouse_id or duplicate entry.".

(** The two [except] clauses. *)
Definition on_error (e : exn) : M response :=
  match e with
  | IntegrityError _ => rollback ;;; ret (Error integrity_message, 400)
  | _ => rollback ;;; ret (Error (str_exn e), 500)
  end.

(** The [try] statement and the [return] after it.  Each [except] clause
    returns its response from inside the statement; when the block ends
    well, the last line reads [product.id] for the response, after the
    commit and outside the [try], so that an error of that read is caught
    by no clause. *)
Definition transact (data : json) (price : Decimal) (warehouse_quantities : list json) : M response :=
  outcome <- try_except
               (pid <- write_product data price warehouse_quantities ;; ret (inl pid))
               (fun e => answer <- on_error e ;; ret (inr answer)) ;;
  match outcome with
  | inl pid =>
      key <- load_product_id pid ;;
      ret (Created "Product created" key, 201)
  | inr answer => ret answer
  end.

(** [request.json or {}]. *)
Definition request_data (request_json : json) : json :=
  if truthy request_json then request_json else JDict [].

Section CreateProduct.

(** [Decimal(str(v))] of the standard library: [None] when it raises
    [InvalidOperation]. *)
Variable Decimal_str : json -> option Decimal.

(** The [try] around the price: a [TypeError] of the subscript is caught
    like a failed conversion. *)
Definition parse_price (data : json) : res (option Decimal) :=
  match py_getitem data "price" with
  | Ok v => Ok (Decimal_str v)
  | Raise (TypeError _) => Ok None
  | Raise e => Raise e
  end.

(** The handler of [POST /api/products].  [others] is what concurrent
    requests commit after the SKU has been looked up and before this
    request writes; [fun d => d] is a request running alone. *)
Definition create_product (others : DB -> DB) (request_json : json) : M response :=
  let data := request_data request_json in
  missing <- lift (first_missing data required_fields) ;;
  match missing with
  | Some field => ret (Error (String.append "Missing required field: " field), 400)
  | None =>
      price <- lift (parse_price data) ;;
      match price with
      | None => ret (Error "Invalid price format.", 400)
      | Some price =>
          sku <- lift (py_getitem data "sku") ;;
          existing <- first_product_by_sku sku ;;
          match existing with
          | Some _ => ret (Error "SKU must be unique.", 409)
          | None =>
              warehouse_quantities <- lift (py_getitem data "warehouse_quantities") ;;
              match warehouse_quantities with
              | JList (w :: ws) =>
                  if existsb entry_rejected (w :: ws)
                  then ret (Error "Each warehouse entry must have warehouse_id and non-negative integer quantity.", 400)
                  else
                    interleave others ;;;
                    transact data price (w :: ws)
              | _ => ret (Error "warehouse_quantities must be a non-empty list.", 400)
              end
          end
      end
  end.

End CreateProduct.


(** ** Part 3: [low_stock_alerts] *)

Definition RECENT_SALES_DAYS : Z := 30.

(** Points in time are counted in microseconds, the resolution of
    [datetime]; [timedelta(days=n)] is [n] days of them. *)
Definition timedelta_days (n : Z) : Z := n * 86400000000.

(** SQL comparison over nullable integers: unknown when an operand is NULL;
    a WHERE clause keeps a row only when its condition is true. *)
Definition sql_lt (a b : option Z) : option bool :=
  match a, b with
  | Some x, Some y => Some (x <? y)
  | _, _ => None
  end.

Definition sql_eq (a b : option Z) : option bool :=
  match a, b with
  | Some x, Some y => Some (x =? y)
  | _, _ => None
  end.

Definition is_true (c : option bool) : bool :=
  match c with
  | Some b => b
  | None => false
  end.

Definition sum_Z (l : list Z) : Z := fold_right Z.add 0 l.

(** [Warehouse.query.filter_by(company_id=company_id).all()] and the list
    of their ids. *)
Definition company_warehouses (d : DB) (company_id : Z) : list Warehouse :=
  filter (fun w => warehouse_company w =? company_id) (warehouses d).

Definition warehouse_ids (d : DB) (company_id : Z) : list Z :=
  map warehouse_id (company_warehouses d company_id).

Definition in_ (x : Z) (l : list Z) : bool := existsb (Z.eqb x) l.

(** A row of the subquery [sales_subq]. *)
Record sales_row : Type := mkSales {
  sales_inventory_id : Z;
  total_sales : Z;
  avg_daily_sales : Q
}.

(** The ledger rows the subquery aggregates: the join of the ledger with the
    inventory on the inventory reference, restricted to sales since [since]
    in the warehouses [wids]. *)
Definition sales_rows (d : DB) (since : Z) (wids : list Z) : list (InventoryChange * Inventory) :=
  filter
    (fun ci =>
       String.eqb (change_type (fst ci)) "sale"
       && (since <=? occurred_at (fst ci))
       && in_ (inv_warehouse_id (snd ci)) wids)
    (flat_map
       (fun c =>
          map (pair c)
            (filter (fun i => change_inventory_id c =? inventory_id i) (inventory d)))
       (inventory_changes d)).

(** The [/] of the subquery divides a sum of integers by an integer inside
    the database.  What the handler reads off the row is the quotient as
    the database computes it and as the driver hands it over, and that is
    not the same with every version of SQLAlchemy and with every store: the
    operator is rendered as a true division or as the [/] of the store,
    which for two integers may be the division of integers, and a decimal
    comes back with the number of places the driver keeps.  In every case
    the value is a number; it is taken as the rational it stands for. *)
Class Dialect : Type := {
  divide : Z -> Z -> Q
}.

(** Three dialects.  The true division carried out exactly; the division
    of integers, which drops the fraction; and the true division rounded to
    the nearest number of ten decimal places, the divisor being positive.
    The first is the one the sample stores are queried in when no other is
    named. *)
#[export] Instance true_division : Dialect :=
  {| divide a b := (inject_Z a / inject_Z b)%Q |}.

Definition integer_division : Dialect :=
  {| divide a b := inject_Z (Z.quot a b) |}.

Definition ten_decimal_division : Dialect :=
  {| divide a b := Qmake ((2 * (a * 10 ^ 10) + b) / (2 * b)) (10 ^ 10) |}.

Section LowStockAlerts.

Context {dialect : Dialect}.

(** GROUP BY the inventory id: one row per id that has a ledger row, with
    the sum of [quantity_delta * -1] and that sum over the length of the
    window, divided in the database.  The sum is the sum of the integers
    whatever its size, as in a store that sums in arbitrary precision; in a
    store that sums in bounded integers, a sum out of their range makes the
    query fail, which is left out. *)
Definition sales_group (rows : list (InventoryChange * Inventory)) (k : Z) : sales_row :=
  let total :=
    sum_Z (map (fun ci => quantity_delta (fst ci) * -1)
             (filter (fun ci => inventory_id (snd ci) =? k) rows)) in
  mkSales k total (divide total RECENT_SALES_DAYS).

Definition sales_subq (d : DB) (since : Z) (wids : list Z) : list sales_row :=
  let rows := sales_rows d since wids in
  map (sales_group rows) (nodup Z.eq_dec (map (fun ci => inventory_id (snd ci)) rows)).

(** A row of the main query before the columns are selected. *)
Record joined_row : Type := mkJoined {
  of_product : Product;
  of_inventory : Inventory;
  of_warehouse : Warehouse;
  of_sales : option sales_row;
  of_supplier : Supplier
}.

(** LEFT OUTER JOIN with the subquery: the matching rows, or one row of
    NULLs when there is none. *)
Definition outerjoin_sales (i : Inventory) (sales : list sales_row) : list (option sales_row) :=
  match filter (fun r => inventory_id i =? sales_inventory_id r) sales with
  | [] => [None]
  | matching => map Some matching
  end.

(** The joins of the main query, in the order they are written. *)
Definition joins (d : DB) (sales : list sales_row) : list joined_row :=
  flat_map (fun p =>
    flat_map (fun i =>
      flat_map (fun w =>
        flat_map (fun sr =>
          map (mkJoined p i w sr)
            (filter (fun s => is_true (sql_eq (supplier_ref p) (Some (supplier_id s))))
               (suppliers d)))
          (outerjoin_sales i sales))
        (filter (fun w => inv_warehouse_id i =? warehouse_id w) (warehouses d)))
      (filter (fun i => inv_product_id i =? product_id p) (inventory d)))
    (products d).

(** The WHERE clause of the main query. *)
Definition where_low_stock (wids : list Z) (r : joined_row) : bool :=
  in_ (inv_warehouse_id (of_inventory r)) wids
  && is_true (sql_lt (quantity (of_inventory r)) (low_stock_thresh (of_product r)))
  && match of_sales r with
     | Some sr => 0 <? total_sales sr
     | None => false
     end.

Definition low_stock_rows (d : DB) (now company_id : Z) : list joined_row :=
  let wids := warehouse_ids d company_id in
  let since := now - timedelta_days RECENT_SALES_DAYS in
  filter (where_low_stock wids) (joins d (sales_subq d since wids)).

(** The columns the main query selects. *)
Record result_row : Type := mkRow {
  row_product_id : Z;
  row_product_name : string;
  row_sku : string;
  row_warehouse_id : Z;
  row_warehouse_name : string;
  row_current_stock : option Z;
  row_threshold : option Z;
  row_supplier_id : Z;
  row_supplier_name : string;
  row_contact_email : string;
  row_avg_daily_sales : option Q
}.

Definition select_columns (r : joined_row) : result_row :=
  mkRow (product_id (of_product r)) (product_name (of_product r)) (product_sku (of_product r))
    (inv_warehouse_id (of_inventory r)) (warehouse_name (of_warehouse r))
    (quantity (of_inventory r)) (low_stock_thresh (of_product r))
    (supplier_id (of_supplier r)) (supplier_name (of_supplier r)) (contact_email (of_supplier r))
    (option_map avg_daily_sales (of_sales r)).

Definition results (d : DB) (now company_id : Z) : list result_row :=
  map select_columns (low_stock_rows d now company_id).

Record supplier_record : Type := mkSupplierRecord {
  sr_id : Z;
  sr_name : string;
  sr_contact_email : string
}.

Record alert : Type := mkAlert {
  alert_product_id : Z;
  alert_product_name : string;
  alert_sku : string;
  alert_warehouse_id : Z;
  alert_warehouse_name : string;
  current_stock : Z;
  threshold : Z;
  days_until_stockout : option Z;
  supplier : supplier_record
}.

(** [math.ceil(cur_stock / avg_daily_sales)] when the average is there and
    positive, [None] otherwise.  The quotient of the stock by the average
    is the quotient of the two numbers, before any rounding to the
    precision of the type Python computes it in. *)
Definition estimate_days (cur_stock : Z) (avg : option Q) : option Z :=
  match avg with
  | Some a =>
      if negb (Qeq_bool a 0) && negb (Qle_bool a 0)
      then Some (Qceiling (inject_Z cur_stock / a))
      else None
  | None => None
  end.

(** The body of the loop that builds the alerts. *)
Definition build_alert (row : result_row) : alert :=
  let cur_stock := match row_current_stock row with Some q => q | None => 0 end in
  let threshold := match row_threshold row with Some t => t | None => 1 end in
  mkAlert (row_product_id row) (row_product_name row) (row_sku row)
    (row_warehouse_id row) (row_warehouse_name row)
    cur_stock threshold
    (estimate_days cur_stock (row_avg_daily_sales row))
    (mkSupplierRecord (row_supplier_id row) (row_supplier_name row) (row_contact_email row)).

Record alerts_body : Type := mkAlerts {
  alerts : list alert;
  total_alerts : Z
}.

(** The handler of [GET /api/companies/<company_id>/alerts/low-stock]; [now]
    is the reading of [datetime.utcnow()]. *)
Definition low_stock_alerts (d : DB) (now company_id : Z) : alerts_body * Z :=
  let alerts := map build_alert (results d now company_id) in
  (mkAlerts alerts (Z.of_nat (List.length alerts)), 200).

End LowStockAlerts.

(** * Notions used in the statements *)

(** Every way a run of [create_product] on a fresh session can end, with the
    tests that lead there: before the store is touched, after the lookup of
    the SKU, or through the transaction. *)
Inductive exit (Decimal_str : json -> option Decimal) (others : DB -> DB)
    (data : json) (d : DB) : res response -> Session -> Prop :=
| exit_not_iterable e :
    first_missing data required_fields = Raise e ->
    exit Decimal_str others data d (Raise e) (new_session d)
| exit_missing field :
    first_missing data required_fields = Ok (Some field) ->
    exit Decimal_str others data d
      (Ok (Error (String.append "Missing required field: " field), 400)) (new_session d)
| exit_price_raises e :
    first_missing data required_fields = Ok None ->
    parse_price Decimal_str data = Raise e ->
    exit Decimal_str others data d (Raise e) (new_session d)
| exit_price :
    first_missing data required_fields = Ok None ->
    parse_price Decimal_str data = Ok None ->
    exit Decimal_str others data d (Ok (Error "Invalid price format.", 400)) (new_session d)
| exit_no_sku price e :
    first_missing data required_fields = Ok None ->
    parse_price Decimal_str data = Ok (Some price) ->
    py_getitem data "sku" = Raise e ->
    exit Decimal_str others data d (Raise e) (new_session d)
| exit_lookup_refused price sku :
    first_missing data required_fields = Ok None ->
    parse_price Decimal_str data = Ok (Some price) ->
    py_getitem data "sku" = Ok sku ->
    bind_text sku = None ->
    let e := DBAPIError "unsupported parameter type" in
    exit Decimal_str others data d (Raise e)
      (mkSession d None [] [Refused SELECT_product e])
| exit_conflict price sku k existing :
    first_missing data required_fields = Ok None ->
    parse_price Decimal_str data = Ok (Some price) ->
    py_getitem data "sku" = Ok sku ->
    bind_text sku = Some k ->
    find (fun p => String.eqb (product_sku p) k) (products d) = Some existing ->
    exit Decimal_str others data d (Ok (Error "SKU must be unique.", 409))
      (mkSession d None [] [Done SELECT_product])
| exit_no_quantities price sku k e :
    first_missing data required_fields = Ok None ->
    parse_price Decimal_str data = Ok (Some price) ->
    py_getitem data "sku" = Ok sku ->
    bind_text sku = Some k ->
    find (fun p => String.eqb (product_sku p) k) (products d) = None ->
    py_getitem data "warehouse_quantities" = Raise e ->
    exit Decimal_str others data d (Raise e)
      (mkSession d None [] [Done SELECT_product])
| exit_not_a_list price sku k wq :
    first_missing data required_fields = Ok None ->
    parse_price Decimal_str data = Ok (Some price) ->
    py_getitem data "sku" = Ok sku ->
    bind_text sku = Some k ->
    find (fun p => String.eqb (product_sku p) k) (products d) = None ->
    py_getitem data "warehouse_quantities" = Ok wq ->
    (forall w ws, wq <> JList (w :: ws)) ->
    exit Decimal_str others data d
      (Ok (Error "warehouse_quantities must be a non-empty list.", 400))
      (mkSession d None [] [Done SELECT_product])
| exit_entry price sku k wqs :
    first_missing data required_fields = Ok None ->
    parse_price Decimal_str data = Ok (Some price) ->
    py_getitem data "sku" = Ok sku ->
    bind_text sku = Some k ->
    find (fun p => String.eqb (product_sku p) k) (products d) = None ->
    py_getitem data "warehouse_quantities" = Ok (JList wqs) ->
    existsb entry_rejected wqs = true ->
    exit Decimal_str others data d
      (Ok (Error "Each warehouse entry must have warehouse_id and non-negative integer quantity.", 400))
      (mkSession d None [] [Done SELECT_product])
| exit_transact price sku k wqs r s' :
    first_missing data required_fields = Ok None ->
    parse_price Decimal_str data = Ok (Some price) ->
    py_getitem data "sku" = Ok sku ->
    bind_text sku = Some k ->
    find (fun p => String.eqb (product_sku p) k) (products d) = None ->
    py_getitem data "warehouse_quantities" = Ok (JList wqs) ->
    wqs <> [] ->
    existsb entry_rejected wqs = false ->
    transact data price wqs (mkSession (others d) None [] [Done SELECT_product]) = (r, s') ->
    exit Decimal_str others data d r s'.

(** An inventory row stocks the product [pid] as the request entry [wq]
    asks: it refers to the product, and carries the warehouse and the
    quantity of the entry. *)
Definition stocks (pid : Z) (row : Inventory) (wq : json) : Prop :=
  inv_product_id row = pid /\
  (exists wid, py_getitem wq "warehouse_id" = Ok wid
               /\ int_value wid = Some (inv_warehouse_id row)) /\
  (exists q, py_getitem wq "quantity" = Ok q /\ int_value q = quantity row).

(** The third validation step as a test on the request: the value under
    [warehouse_quantities] is a non-empty list none of whose entries is
    rejected. *)
Definition quantities_acceptable (data : json) : bool :=
  match py_getitem data "warehouse_quantities" with
  | Ok (JList (w :: ws)) => negb (existsb entry_rejected (w :: ws))
  | _ => false
  end.

Definition about_lookup (ev : event) : Prop :=
  ev = Done SELECT_product \/ exists e, ev = Refused SELECT_product e.

(** The ledger rows that count for an inventory id: sales, not older than
    [since], that refer to it. *)
Definition window_sales (d : DB) (since k : Z) : list InventoryChange :=
  filter
    (fun c => String.eqb (change_type c) "sale" && (since <=? occurred_at c)
              && (change_inventory_id c =? k))
    (inventory_changes d).

(** The units sold, in the words of the specification: the sum of the
    magnitudes of the negative deltas. *)
Definition units_sold (cs : list InventoryChange) : Z :=
  sum_Z (map (fun c => Z.abs (quantity_delta c)) (filter (fun c => quantity_delta c <? 0) cs)).

(** The units taken back: the sum of the positive deltas. *)
Definition units_returned (cs : list InventoryChange) : Z :=
  sum_Z (map quantity_delta (filter (fun c => 0 <? quantity_delta c) cs)).

(** The four fields of a request, as the handler reads them off its data. *)
Definition carries (data name sku price quantities : json) : Prop :=
  py_getitem data "name" = Ok name /\
  py_getitem data "sku" = Ok sku /\
  py_getitem data "price" = Ok price /\
  py_getitem data "warehouse_quantities" = Ok quantities.

(** The stored SKUs are pairwise different. *)
Definition unique_skus (d : DB) : Prop := NoDup (map product_sku (products d)).

(** Every inventory row refers to a stored product and a stored warehouse. *)
Definition references_hold (d : DB) : Prop :=
  forall i, In i (inventory d) ->
            product_exists (inv_product_id i) d = true
            /\ warehouse_exists (inv_warehouse_id i) d = true.

(** A store that has grown out of another by new product and inventory
    rows at the end of their tables, and by nothing else. *)
Definition extends (d d' : DB) : Prop :=
  warehouses d' = warehouses d /\
  suppliers d' = suppliers d /\
  inventory_changes d' = inventory_changes d /\
  (exists ps, products d' = products d ++ ps) /\
  (exists rows, inventory d' = inventory d ++ rows).

(** The keys of the product table are pairwise different. *)
Definition unique_product_ids (d : DB) : Prop := NoDup (map product_id (products d)).

(** A store with its ledger replaced. *)
Definition with_changes (d : DB) (cs : list InventoryChange) : DB :=
  mkDB (products d) (inventory d) (warehouses d) (suppliers d) cs.

(** The ledger rows that are sales not older than [since]. *)
Definition recent_sales (d : DB) (since : Z) : list InventoryChange :=
  filter (fun c => String.eqb (change_type c) "sale" && (since <=? occurred_at c))
    (inventory_changes d).

(** The inventory rows held in the warehouses of a company. *)
Definition company_inventory (d : DB) (company_id : Z) : list Inventory :=
  filter (fun i => in_ (inv_warehouse_id i) (warehouse_ids d company_id)) (inventory d).

(** * Sample requests and stores *)

(** [Decimal(str(n))] for a JSON integer [n].  Used to run the handler on
    sample requests, all of which give their price as an integer; anything
    else is refused here. *)
Definition Decimal_of_int (v : json) : option Decimal :=
  match v with
  | JInt n => Some (Dfinite (n <? 0) (Z.to_N (Z.abs n)) 0)
  | _ => None
  end.

Definition alone : DB -> DB := fun d => d.

(** A request for one product stocked in the given warehouses. *)
Definition entry (wid q : json) : json :=
  JDict [("warehouse_id", wid); ("quantity", q)].

Definition widget (warehouse_quantities : json) : json :=
  JDict [("name", JStr "Widget"); ("sku", JStr "W-1"); ("price", JInt 10);
         ("warehouse_quantities", warehouse_quantities)].

(** A store with two warehouses and nothing else. *)
Definition two_warehouses : DB :=
  mkDB [] [] [mkWarehouse 1 1 "North"; mkWarehouse 2 1 "South"] [] [].

(** A concurrent request that commits a product under the SKU of [widget]
    between the lookup and the write. *)
Definition racing_widget (d : DB) : DB :=
  with_products d
    (products d ++ [mkProduct (next_id product_id (products d)) "Widget" "W-1" None None None]).

Definition acme : Supplier := mkSupplier 1 "Acme" "orders@acme.example".

(** A store with one product stocked in the one warehouse of company 7,
    one supplier, and one sale of three units on day 100. *)
Definition depot (p : Product) (stock : Z) : DB :=
  mkDB [p]
       [mkInventory 1 (product_id p) 1 (Some stock)]
       [mkWarehouse 1 7 "Main"]
       [acme]
       [mkInventoryChange 1 1 (-3) "sale" (timedelta_days 100)].

Definition day_101 : Z := timedelta_days 101.

(** Naming the run of the transaction after an inversion of [exit]. *)
Ltac name_transact H :=
  match goal with
  | Ht : transact _ _ _ _ = _ |- _ => rename Ht into H
  end.

(** * Properties *)

(** ** The handlers on sample inputs *)

(** A widget stocked in both warehouses: one lookup, three inserts, one
    commit, and the key of the product read again for the response. *)
Example widget_is_created :
  let run := create_product Decimal_of_int alone
               (widget (JList [entry (JInt 1) (JInt 5); entry (JInt 2) (JInt 7)]))
               (new_session two_warehouses) in
  fst run = Ok (Created "Product created" 1, 201) /\
  trace (snd run)
  = [Done SELECT_product; Done INSERT_product; Done INSERT_inventory;
     Done INSERT_inventory; Done COMMIT; Done SELECT_product_by_id] /\
  inventory (committed (snd run))
  = [mkInventory 1 1 1 (Some 5); mkInventory 2 1 2 (Some 7)].
Proof. cbv zeta. repeat split; reflexivity. Qed.

(** The same request sent twice: the second is stopped by the lookup. *)
Example widget_twice_is_a_conflict :
  let request := widget (JList [entry (JInt 1) (JInt 5)]) in
  let once := snd (create_product Decimal_of_int alone request (new_session two_warehouses)) in
  fst (create_product Decimal_of_int alone request (new_session (committed once)))
  = Ok (Error "SKU must be unique.", 409).
Proof. reflexivity. Qed.

(** Bodies that are not objects: the empty list stands for no body at all,
    a string that contains the four field names passes the first loop and
    fails at the price, and a number cannot be searched. *)
Example bodies_that_are_not_objects :
  fst (create_product Decimal_of_int alone (JList []) (new_session two_warehouses))
  = Ok (Error "Missing required field: name", 400) /\
  fst (create_product Decimal_of_int alone
         (JStr "name, sku, price, warehouse_quantities") (new_session two_warehouses))
  = Ok (Error "Invalid price format.", 400) /\
  fst (create_product Decimal_of_int alone (JInt 5) (new_session two_warehouses))
  = Raise (TypeError "argument is not iterable").
Proof. repeat split; reflexivity. Qed.

(** A negative quantity, and a quantity given as a string. *)
Example bad_quantities_are_rejected :
  entry_rejected (entry (JInt 1) (JInt (-5))) = true /\
  entry_rejected (entry (JInt 1) (JStr "5")) = true /\
  entry_rejected (JDict [("quantity", JInt 5)]) = true /\
  entry_rejected (entry (JInt 1) (JInt 0)) = false.
Proof. repeat split; reflexivity. Qed.

(** The widget of the alert example: one alert, fifty days of stock. *)
Example widget_alert :
  low_stock_alerts (depot (mkProduct 1 "Widget" "W-1" None (Some 10) (Some 1)) 5) day_101 7
  = (mkAlerts [mkAlert 1 "Widget" "W-1" 1 "Main" 5 10 (Some 50)
                 (mkSupplierRecord 1 "Acme" "orders@acme.example")] 1, 200).
Proof. reflexivity. Qed.

(** Another company sees nothing of it, and neither does anyone once the
    sale is more than thirty days old. *)
Example widget_alert_is_scoped :
  low_stock_alerts (depot (mkProduct 1 "Widget" "W-1" None (Some 10) (Some 1)) 5) day_101 8
  = (mkAlerts [] 0, 200) /\
  low_stock_alerts (depot (mkProduct 1 "Widget" "W-1" None (Some 10) (Some 1)) 5)
    (timedelta_days 131) 7
  = (mkAlerts [] 0, 200).
Proof. split; reflexivity. Qed.

(** The same widget in the three dialects: 3/30 is 0.1 in ten decimal
    places as it is exactly, and the estimate is fifty days in both; the
    division of integers gives 0 for the average, and no estimate. *)
Example widget_alert_by_dialect :
  let d := depot (mkProduct 1 "Widget" "W-1" None (Some 10) (Some 1)) 5 in
  map days_until_stockout
    (alerts (fst (low_stock_alerts (dialect := true_division) d day_101 7))) = [Some 50] /\
  map days_until_stockout
    (alerts (fst (low_stock_alerts (dialect := ten_decimal_division) d day_101 7))) = [Some 50] /\
  map days_until_stockout
    (alerts (fst (low_stock_alerts (dialect := integer_division) d day_101 7))) = [None].
Proof. cbv zeta. repeat split; reflexivity. Qed.

(** Seven units in stock and seven sold in the window.  The estimate is
    thirty days when the average is the exact 7/30, thirty-one when it comes
    back rounded to ten places, and there is none when the database divides
    integers, for the average is then 0. *)
Example estimate_by_dialect :
  let d := with_changes (depot (mkProduct 1 "Widget" "W-1" None (Some 10) (Some 1)) 7)
             [mkInventoryChange 1 1 (-7) "sale" (timedelta_days 100)] in
  map days_until_stockout
    (alerts (fst (low_stock_alerts (dialect := true_division) d day_101 7))) = [Some 30] /\
  map days_until_stockout
    (alerts (fst (low_stock_alerts (dialect := ten_decimal_division) d day_101 7))) = [Some 31] /\
  map days_until_stockout
    (alerts (fst (low_stock_alerts (dialect := integer_division) d day_101 7))) = [None].
Proof. cbv zeta. repeat split; reflexivity. Qed.

(** A SKU given as a list: the driver cannot bind it, the lookup raises,
    and nothing catches the error. *)
Example sku_given_as_a_list :
  let request := JDict [("name", JStr "Widget"); ("sku", JList [JStr "W-1"]);
                        ("price", JInt 10);
                        ("warehouse_quantities", JList [entry (JInt 1) (JInt 5)])] in
  let run := create_product Decimal_of_int alone request (new_session two_warehouses) in
  fst run = Raise (DBAPIError "unsupported parameter type") /\
  trace (snd run) = [Refused SELECT_product (DBAPIError "unsupported parameter type")].
Proof. cbv zeta. split; reflexivity. Qed.

(** A quantity of 2^63 units, which no integer column holds: the insert of
    the inventory row is refused by the driver, and the answer has status
    500. *)
Example quantity_out_of_range :
  let run := create_product Decimal_of_int alone
               (widget (JList [entry (JInt 1) (JInt (2 ^ 63))]))
               (new_session two_warehouses) in
  fst run = Ok (Error "integer out of range", 500) /\
  trace (snd run)
  = [Done SELECT_product; Done INSERT_product;
     Refused INSERT_inventory (DBAPIError "integer out of range"); Done ROLLBACK] /\
  committed (snd run) = two_warehouses.
Proof. cbv zeta. repeat split; reflexivity. Qed.

(** ** The exits of [create_product] *)

(** A run of the handler on a fresh session ends at one of the exits. *)
Lemma create_product_exit Decimal_str others request_json d r s' :
  create_product Decimal_str others request_json (new_session d) = (r, s') ->
  exit Decimal_str others (request_data request_json) d r s'.
Proof.
  unfold create_product.
  generalize (request_data request_json). intros data.
  unfold bind at 1. unfold lift at 1.
  destruct (first_missing data required_fields) as [[field|]|e] eqn:Hmiss.
  - unfold ret. intros H. inversion H. subst. now apply exit_missing.
  - unfold bind at 1. unfold lift at 1.
    destruct (parse_price Decimal_str data) as [[price|]|e] eqn:Hprice.
    + unfold bind at 1. unfold lift at 1.
      destruct (py_getitem data "sku") as [sku|e] eqn:Hsku.
      * unfold bind at 1. unfold first_product_by_sku.
        destruct (bind_text sku) as [k|] eqn:Hk.
        -- unfold bind at 1. unfold record at 1.
           cbn [new_session view transaction committed pending trace app].
           destruct (find _ (products d)) as [existing|] eqn:Hfind.
           ++ unfold ret. intros H. inversion H. subst. eapply exit_conflict; eauto.
           ++ unfold bind at 1. unfold lift at 1.
              destruct (py_getitem data "warehouse_quantities") as [wq|e] eqn:Hwq.
              ** destruct wq as [ | | | | | [|w ws] | ];
                   try (unfold ret; intros H; inversion H; subst;
                        eapply exit_not_a_list; eauto; intros; discriminate).
                 destruct (existsb entry_rejected (w :: ws)) eqn:Hrej.
                 --- unfold ret. intros H. inversion H. subst. eapply exit_entry; eauto.
                 --- unfold bind at 1. unfold interleave at 1.
                     cbn [committed transaction pending trace].
                     intros H. eapply exit_transact; eauto. discriminate.
              ** intros H. inversion H. subst. eapply exit_no_quantities; eauto.
        -- unfold bind, record, raise. cbn. intros H. inversion H. subst.
           eapply exit_lookup_refused; eauto.
      * intros H. inversion H. subst. eapply exit_no_sku; eauto.
    + unfold ret. intros H. inversion H. subst. now apply exit_price.
    + intros H. inversion H. subst. now apply exit_price_raises.
  - intros H. inversion H. subst. now apply exit_not_iterable.
Qed.

(** ** What a flush does to the session *)

(** A flush never touches the durable state; it extends the trace by one
    carried-out INSERT per object, or stops at the first refused one, whose
    error it raises. *)
Lemma flush_objects_run os :
  forall s r s',
    flush_objects os s = (r, s') ->
    committed s' = committed s /\
    exists t, trace s' = trace s ++ t /\
      match r with
      | Ok _ => t = map (fun o => Done (statement_of o)) os
      | Raise e =>
          exists t0 st, t = map Done t0 ++ [Refused st e] /\ st <> SELECT_product
      end.
Proof.
  induction os as [|o rest IH]; intros s r s' H.
  - cbn in H. inversion H. subst. split; [reflexivity|].
    exists []. now rewrite app_nil_r.
  - cbn [flush_objects] in H.
    destruct (insert_object o (view s)) as [[w key]|e] eqn:Hins.
    + unfold bind in H.
      destruct (flush_objects rest _) as [[keys|e] s1] eqn:Hrest;
        apply IH in Hrest; cbn [committed trace] in Hrest;
        destruct Hrest as [Hc [t [Ht Hr]]]; inversion H; subst.
      * split; [assumption|].
        exists (Done (statement_of o) :: map (fun o => Done (statement_of o)) rest).
        rewrite Ht, <- app_assoc. now split.
      * split; [assumption|].
        destruct Hr as [t0 [st [Ht0 Hst]]]. subst t.
        exists (Done (statement_of o) :: map Done t0 ++ [Refused st e]).
        rewrite Ht, <- app_assoc. split; [reflexivity|].
        exists (statement_of o :: t0), st. now split.
    + inversion H. subst. cbn [committed trace]. split; [reflexivity|].
      exists [Refused (statement_of o) e]. split; [reflexivity|].
      exists [], (statement_of o). split; [reflexivity|].
      destruct o; discriminate.
Qed.

(** An integer is bound to its column as it is, when it is in the range
    of the column. *)
Lemma bind_integer_ok v n :
  bind_integer v = Ok n -> int_value v = Some n /\ fits_integer_column n = true.
Proof.
  unfold bind_integer. destruct (int_value v) as [m|]; [|discriminate].
  destruct (fits_integer_column m) eqn:Hfits; [|discriminate].
  intros H. inversion H. subst. now split.
Qed.

Lemma inventory_entry_ok pid wq o :
  inventory_entry pid wq = Ok o ->
  exists wid q, o = NewInventory pid wid q
                /\ py_getitem wq "warehouse_id" = Ok wid
                /\ py_getitem wq "quantity" = Ok q.
Proof.
  unfold inventory_entry.
  destruct (py_getitem wq "warehouse_id") as [wid|]; [|discriminate].
  destruct (py_getitem wq "quantity") as [q|]; [|discriminate].
  intros H. inversion H. now exists wid, q.
Qed.

(** Flushing the inventory objects built from the entries of a request
    appends one row per entry, in order, each in a warehouse the store
    knows, and nothing else changes. *)
Lemma flush_inventory pid :
  forall wqs os s keys s',
    inventory_entries pid wqs = Ok os ->
    flush_objects os s = (Ok keys, s') ->
    products (view s') = products (view s) /\
    exists rows, inventory (view s') = inventory (view s) ++ rows
                 /\ Forall2 (stocks pid) rows wqs
                 /\ Forall (fun row => warehouse_exists (inv_warehouse_id row) (view s) = true)
                      rows.
Proof.
  induction wqs as [|wq rest IH]; intros os s keys s' Hos Hfl.
  - cbn in Hos. inversion Hos. subst. cbn in Hfl. inversion Hfl. subst.
    split; [reflexivity|]. exists []. rewrite app_nil_r. repeat split; constructor.
  - cbn [inventory_entries] in Hos.
    destruct (inventory_entry pid wq) as [o|] eqn:Ho; [|discriminate].
    destruct (inventory_entries pid rest) as [os'|] eqn:Hos'; [|discriminate].
    inversion Hos. subst os. clear Hos.
    apply inventory_entry_ok in Ho. destruct Ho as [wid [q [-> [Hwid Hq]]]].
    cbn [flush_objects] in Hfl.
    destruct (insert_object (NewInventory pid wid q) (view s)) as [[w key]|] eqn:Hins;
      [|discriminate].
    unfold bind in Hfl.
    destruct (flush_objects os' _) as [[keys'|] s1] eqn:Hrest; [|discriminate].
    inversion Hfl. subst. clear Hfl.
    apply (IH _ _ _ _ eq_refl) in Hrest.
    unfold view at 2 4 5 in Hrest. cbn [transaction] in Hrest.
    destruct Hrest as [Hp [rows [Hi [Hrows Hknown]]]].
    cbn [insert_object] in Hins.
    destruct (bind_integer wid) as [wh|] eqn:Hwh; [|discriminate].
    destruct (bind_integer q) as [qv|] eqn:Hqv; [|discriminate].
    apply bind_integer_ok in Hwh, Hqv. destruct Hwh as [Hwh _], Hqv as [Hqv _].
    destruct (negb (product_exists pid (view s)) || negb (warehouse_exists wh (view s)))
      eqn:Hfk; [discriminate|].
    apply orb_false_elim in Hfk. destruct Hfk as [_ Hfk]. apply negb_false_iff in Hfk.
    destruct (stocked pid wh (view s)); [discriminate|].
    inversion Hins. subst w key. clear Hins.
    cbn [with_inventory products inventory] in Hp, Hi.
    split; [assumption|].
    eexists (_ :: rows). rewrite Hi, <- app_assoc. split; [reflexivity|].
    split.
    + constructor; [|assumption].
      unfold stocks. cbn [inv_product_id inv_warehouse_id quantity].
      split; [reflexivity|]. split; [now exists wid | now exists q].
    + constructor; [exact Hfk | exact Hknown].
Qed.

(** ** What the transaction does to the session *)

(** The [try] block either commits one product row and one inventory row
    per entry, all at once, or raises with the durable state as it found it;
    the only refusal in its part of the trace is then the one it raises. *)
Lemma write_product_run data price wqs s r s' :
  pending s = [] ->
  write_product data price wqs s = (r, s') ->
  match r with
  | Ok pid =>
      transaction s' = None /\ pending s' = [] /\
      (exists p, products (committed s') = products (view s) ++ [p]
                 /\ product_id p = pid
                 /\ py_getitem data "name" = Ok (JStr (product_name p))
                 /\ py_getitem data "sku" = Ok (JStr (product_sku p))
                 /\ product_price p = Some price) /\
      (exists rows, inventory (committed s') = inventory (view s) ++ rows
                    /\ Forall2 (stocks pid) rows wqs
                    /\ Forall (fun row => warehouse_exists (inv_warehouse_id row) (view s)
                                          = true) rows) /\
      (exists t, trace s' = trace s ++ map Done t ++ [Done COMMIT])
  | Raise e =>
      committed s' = committed s /\
      exists t, trace s' = trace s ++ t /\
        forall st e', In (Refused st e') t -> e' = e /\ st <> SELECT_product
  end.
Proof.
  intros Hpend H. unfold write_product in H.
  unfold bind at 1 in H. unfold lift at 1 in H.
  destruct (py_getitem data "name") as [name|e] eqn:Hname.
  2:{ inversion H. subst. split; [reflexivity|]. exists []. rewrite app_nil_r.
      split; [reflexivity|]. intros ? ? Hin. cbn in Hin. contradiction. }
  unfold bind at 1 in H. unfold lift at 1 in H.
  destruct (py_getitem data "sku") as [sku|e] eqn:Hsku.
  2:{ inversion H. subst. split; [reflexivity|]. exists []. rewrite app_nil_r.
      split; [reflexivity|]. intros ? ? Hin. cbn in Hin. contradiction. }
  unfold bind at 1 in H. unfold add at 1 in H.
  unfold bind at 1 in H. unfold flush at 1 in H.
  cbn [pending committed transaction trace] in H. rewrite Hpend in H.
  cbn [app flush_objects] in H.
  unfold view at 1 in H.
  cbn [pending committed transaction trace statement_of] in H.
  change (match transaction s with Some w => w | None => committed s end)
    with (view s) in H.
  destruct (insert_object (NewProduct name sku price) (view s)) as [[w pid]|e] eqn:Hins.
  2:{ inversion H. subst. cbn [committed trace]. split; [reflexivity|].
      eexists. split; [reflexivity|].
      intros st e' Hin. cbn in Hin. destruct Hin as [Hin|[]]. inversion Hin. subst. split; [reflexivity|discriminate]. }
  cbn [insert_object] in Hins.
  destruct (bind_text name) as [n|] eqn:Hn; [|discriminate].
  destruct (bind_text sku) as [k|] eqn:Hk; [|discriminate].
  destruct (sku_taken k (view s)); [discriminate|].
  inversion Hins. subst w pid. clear Hins.
  destruct name; try discriminate. destruct sku; try discriminate.
  cbn in Hn, Hk. inversion Hn. inversion Hk. subst. clear Hn Hk.
  cbn [bind ret hd] in H.
  set (pid := next_id product_id (products (view s))) in *.
  unfold bind at 1 in H. unfold lift at 1 in H.
  destruct (inventory_entries pid wqs) as [os|e] eqn:Hos.
  2:{ inversion H. subst. cbn [committed trace]. split; [reflexivity|].
      eexists. split; [reflexivity|].
      intros st e' Hin. cbn in Hin. destruct Hin as [Hin|[]]. discriminate. }
  unfold bind at 1 in H. unfold add_all at 1 in H.
  cbn [pending committed transaction trace app] in H.
  unfold commit in H. unfold bind at 1 2 in H. unfold flush in H.
  cbn [pending] in H.
  destruct (flush_objects os _) as [[keys|e] s1] eqn:Hfl.
  - pose proof (flush_objects_run _ _ _ _ Hfl) as [Hc [t [Ht Hr]]].
    pose proof (flush_inventory _ _ _ _ _ _ Hos Hfl) as [Hp [rows [Hi [Hrows Hknown]]]].
    cbn [committed trace] in Hc, Ht.
    unfold view at 2 in Hp. unfold view at 2 in Hi. unfold view at 1 in Hknown.
    cbn [transaction with_products products inventory] in Hp, Hi, Hknown.
    unfold ret in H. inversion H. subst. clear H.
    cbn [transaction pending committed trace].
    split; [reflexivity|]. split; [reflexivity|].
    split.
    { eexists. split; [exact Hp|]. cbn. repeat split; reflexivity. }
    split.
    { exists rows. split; [assumption|]. split; [assumption|]. exact Hknown. }
    exists (INSERT_product :: map statement_of os).
    rewrite Ht. cbn [map app]. rewrite map_map, <- !app_assoc. reflexivity.
  - pose proof (flush_objects_run _ _ _ _ Hfl) as [Hc [t [Ht Hr]]].
    cbn [committed trace] in Hc, Ht.
    inversion H. subst. clear H.
    split; [assumption|].
    destruct Hr as [t0 [st [-> Hst]]].
    eexists. rewrite Ht, <- app_assoc. split; [reflexivity|].
    intros st' e' Hin. cbn [app] in Hin.
    destruct Hin as [Hin|Hin]; [discriminate|].
    apply in_app_or in Hin. destruct Hin as [Hin|[Hin|[]]].
    + apply in_map_iff in Hin. destruct Hin as [x [Hx _]]. discriminate.
    + inversion Hin. subst. now split.
Qed.

(** The row of the product a [try] block has committed is found again
    under its key. *)
Lemma load_product_id_run pid p ps s :
  transaction s = None ->
  products (committed s) = ps ++ [p] -> product_id p = pid ->
  load_product_id pid s
  = (Ok pid, mkSession (committed s) None (pending s) (trace s ++ [Done SELECT_product_by_id])).
Proof.
  intros Htx Hp Hpid. unfold load_product_id, bind, record.
  unfold view. cbn [transaction committed]. rewrite Htx.
  destruct (find _ (products (committed s))) as [p'|] eqn:Hfind.
  - apply find_some in Hfind. destruct Hfind as [_ Heq]. apply Z.eqb_eq in Heq.
    now rewrite Heq.
  - exfalso. assert (Hin : In p (products (committed s)))
      by (rewrite Hp; apply in_or_app; right; now left).
    pose proof (find_none _ _ Hfind p Hin) as Hne. cbn in Hne.
    rewrite Hpid, Z.eqb_refl in Hne. discriminate.
Qed.

(** The [try] statement answers 201 when its body commits, once the key of
    the product has been read again, and otherwise rolls back and answers by
    the kind of the exception. *)
Lemma transact_run data price wqs s r s' :
  pending s = [] ->
  transact data price wqs s = (r, s') ->
  (exists pid s0, r = Ok (Created "Product created" pid, 201)
                  /\ write_product data price wqs s = (Ok pid, s0)
                  /\ s' = mkSession (committed s0) None []
                            (trace s0 ++ [Done SELECT_product_by_id]))
  \/
  (exists e s1, write_product data price wqs s = (Raise e, s1)
                /\ s' = mkSession (committed s1) None [] (trace s1 ++ [Done ROLLBACK])
                /\ r = Ok match e with
                          | IntegrityError _ => (Error integrity_message, 400)
                          | _ => (Error (str_exn e), 500)
                          end).
Proof.
  intros Hpend. unfold transact, try_except. unfold bind at 1. unfold bind at 1.
  destruct (write_product data price wqs s) as [[pid|e] s1] eqn:Hw.
  - unfold ret at 1.
    pose proof (write_product_run _ _ _ _ _ _ Hpend Hw)
      as (Htx & Hnone & [p (Hp & Hpid & _)] & _).
    unfold bind at 1. rewrite (load_product_id_run pid p _ s1 Htx Hp Hpid).
    unfold ret. intros H. inversion H. subst r s'. left. exists pid, s1.
    rewrite Hnone. now repeat split.
  - intros H. right. exists e, s1. split; [reflexivity|].
    destruct e; cbn in H; inversion H; subst; now split.
Qed.

Lemma not_in_done {st e} {t : list statement} : ~ In (Refused st e) (map Done t).
Proof.
  intros Hin. apply in_map_iff in Hin. destruct Hin as [x [Hx _]]. discriminate.
Qed.

(** In a run that went through the transaction and did not commit, the
    session is back to the durable state it started from, and the answer is
    decided by the exception the block raised. *)
Lemma transact_failed data price wqs d r s' e :
  transact data price wqs (mkSession d None [] [Done SELECT_product]) = (r, s') ->
  (exists st, In (Refused st e) (trace s')) ->
  committed s' = d /\ transaction s' = None /\ pending s' = [] /\
  (exists t, trace s' = t ++ [Done ROLLBACK]) /\
  r = Ok match e with
         | IntegrityError _ => (Error integrity_message, 400)
         | _ => (Error (str_exn e), 500)
         end.
Proof.
  intros Hrun [st Hin].
  apply transact_run in Hrun; [|reflexivity].
  destruct Hrun as [(pid & s0 & -> & Hw & ->)|[e0 [s1 [Hw [-> ->]]]]].
  - apply write_product_run in Hw; [|reflexivity].
    destruct Hw as (_ & _ & _ & _ & t & Ht). cbn [trace] in Hin.
    rewrite Ht in Hin. cbn [trace app] in Hin.
    destruct Hin as [Hin|Hin]; [discriminate|].
    apply in_app_or in Hin. destruct Hin as [Hin|[Hin|[]]]; [|discriminate].
    apply in_app_or in Hin. destruct Hin as [Hin|[Hin|[]]]; [|discriminate].
    exfalso. exact (not_in_done Hin).
  - apply write_product_run in Hw; [|reflexivity].
    destruct Hw as [Hc [t [Ht Hre]]]. cbn [committed trace app] in *.
    rewrite Ht in Hin. cbn [app] in Hin.
    destruct Hin as [Hin|Hin]; [discriminate|].
    apply in_app_or in Hin. destruct Hin as [Hin|[Hin|[]]]; [|discriminate].
    apply Hre in Hin. destruct Hin as [<- _].
    repeat split; try assumption; try reflexivity.
    now exists (trace s1).
Qed.

(** ** Atomicity of the write *)

(** Every request entry has its row among the rows paired with the
    entries. *)
Lemma Forall2_in_right {A B} (P : A -> B -> Prop) xs ys y :
  Forall2 P xs ys -> In y ys -> exists x, In x xs /\ P x y.
Proof.
  induction 1 as [|x y' xs ys Hxy _ IH]; intros Hin; [contradiction|].
  destruct Hin as [->|Hin].
  - exists x. split; [now left | assumption].
  - destruct (IH Hin) as [x' [Hx' Hp]]. exists x'. split; [now right | assumption].
Qed.

(** C1.  Whenever the store refuses one of the inserts of a create-product
    request, the transaction is rolled back before the error response is
    returned: the last statement sent is the ROLLBACK, the session holds no
    working copy and no pending object, the response is an error with
    status 400 or 500, and the durable state is the one the transaction
    started from, so it holds no new product row and no new inventory row.
    In particular a request one of whose entries names a warehouse that
    the store does not have is never answered as created, and leaves the
    durable state as it was before the request, or as the other requests
    have made it meanwhile. *)
Theorem failed_insert_rolls_back Decimal_str others request_json d r s' :
  create_product Decimal_str others request_json (new_session d) = (r, s') ->
  ((exists st e, In (Refused st e) (trace s') /\ st <> SELECT_product) ->
   committed s' = others d /\
   products (committed s') = products (others d) /\
   inventory (committed s') = inventory (others d) /\
   transaction s' = None /\ pending s' = [] /\
   (exists t, trace s' = t ++ [Done ROLLBACK]) /\
   (exists msg code, r = Ok (Error msg, code) /\ (code = 400 \/ code = 500)))
  /\
  (forall wqs wq wid,
      py_getitem (request_data request_json) "warehouse_quantities" = Ok (JList wqs) ->
      In wq wqs ->
      py_getitem wq "warehouse_id" = Ok wid ->
      (forall n, int_value wid = Some n -> warehouse_exists n (others d) = false) ->
      (forall msg pid code, r <> Ok (Created msg pid, code)) /\
      transaction s' = None /\ pending s' = [] /\
      (committed s' = d \/ committed s' = others d)).
Proof.
  intros Hrun. apply create_product_exit in Hrun. split.
  - intros [st [e [Hin Hst]]].
    inversion Hrun; subst; cbn [trace new_session] in Hin;
      try (cbn in Hin; contradiction);
      try (destruct Hin as [Hin|[]]; inversion Hin; congruence).
    name_transact Htx.
    eapply transact_failed in Htx; [|now exists st; exact Hin].
    destruct Htx as (Hc & Ht & Hp & Hlast & ->).
    rewrite Hc. repeat split; try assumption.
    destruct e; eauto.
  - intros wqs wq wid Hwqs Hwq Hwid Hbad.
    inversion Hrun; subst; cbn [new_session committed transaction pending];
      try (repeat split; try discriminate; auto; fail).
    name_transact Htx. apply transact_run in Htx; [|reflexivity].
    destruct Htx as [(pid & s0 & -> & Hw & ->)|[e [s1 [Hw [-> ->]]]]].
    + exfalso. apply write_product_run in Hw; [|reflexivity].
      destruct Hw as (_ & _ & _ & [rows (_ & Hrows & Hknown)] & _).
      unfold view in Hknown. cbn [transaction committed] in Hknown.
      match goal with
      | Hq : py_getitem _ "warehouse_quantities" = Ok (JList ?l) |- _ =>
          rewrite Hq in Hwqs; inversion Hwqs; subst l
      end.
      destruct (Forall2_in_right _ _ _ _ Hrows Hwq) as [row [Hrow (_ & [wid' [Hwid' Hn]] & _)]].
      rewrite Hwid in Hwid'. inversion Hwid'. subst wid'.
      rewrite Forall_forall in Hknown. specialize (Hknown row Hrow).
      rewrite (Hbad _ Hn) in Hknown. discriminate.
    + apply write_product_run in Hw; [|reflexivity].
      destruct Hw as [Hc _]. cbn [committed transaction pending] in *.
      repeat split; auto.
      intros msg pid code. destruct e; discriminate.
Qed.

(** A request naming a warehouse that does not exist: the second inventory
    row is refused, and nothing of the request is left in the store. *)
Lemma failed_insert_rolls_back_witness :
  let run := create_product Decimal_of_int alone
               (widget (JList [entry (JInt 1) (JInt 5); entry (JInt 3) (JInt 7)]))
               (new_session two_warehouses) in
  In (Refused INSERT_inventory (IntegrityError missing_reference)) (trace (snd run)) /\
  products (committed (snd run)) = [] /\
  inventory (committed (snd run)) = [].
Proof.
  intros run.
  assert (Hrun : create_product Decimal_of_int alone
                   (widget (JList [entry (JInt 1) (JInt 5); entry (JInt 3) (JInt 7)]))
                   (new_session two_warehouses) = (fst run, snd run))
    by (symmetry; apply surjective_pairing).
  assert (Hin : In (Refused INSERT_inventory (IntegrityError missing_reference))
                  (trace (snd run)))
    by (vm_compute; tauto).
  split; [exact Hin|].
  destruct (proj1 (failed_insert_rolls_back _ _ _ _ _ _ Hrun)) as (_ & Hp & Hi & _).
  - exists INSERT_inventory, (IntegrityError missing_reference).
    split; [exact Hin | discriminate].
  - split; [exact Hp | exact Hi].
Defined.

(** ** Duplicate SKUs *)

(** C2, as the code has it.  Whenever the store refuses an insert of the
    request with an integrity error, a duplicate SKU included, the handler
    rolls back and returns the generic database error with status 400, the
    same as for a warehouse that does not exist.  Status 409 is returned
    only when the lookup that precedes the transaction finds a product
    stored under the SKU, and then nothing but that lookup was sent to the
    store. *)
Theorem integrity_error_is_400 Decimal_str others request_json d r s' :
  create_product Decimal_str others request_json (new_session d) = (r, s') ->
  (forall st v,
      In (Refused st (IntegrityError v)) (trace s') ->
      r = Ok (Error integrity_message, 400) /\ committed s' = others d) /\
  (forall b,
      r = Ok (b, 409) ->
      b = Error "SKU must be unique." /\
      s' = mkSession d None [] [Done SELECT_product] /\
      exists k p, py_getitem (request_data request_json) "sku" = Ok (JStr k)
                  /\ In p (products d) /\ product_sku p = k).
Proof.
  intros Hrun. apply create_product_exit in Hrun.
  split.
  - intros st v Hin.
    inversion Hrun; subst; cbn [trace new_session] in Hin;
      try (cbn in Hin; contradiction);
      try (destruct Hin as [Hin|[]]; inversion Hin; congruence).
    name_transact Htx.
    eapply transact_failed in Htx; [|now exists st; exact Hin].
    destruct Htx as (Hc & _ & _ & _ & ->). now split.
  - intros b Hb.
    inversion Hrun; subst; try discriminate.
    + match goal with Hr : Ok _ = Ok _ |- _ => inversion Hr; subst end.
      split; [reflexivity|]. split; [reflexivity|].
      match goal with Hk : bind_text ?v = Some _ |- _ =>
        destruct v; try discriminate; cbn in Hk; inversion Hk; subst
      end.
      exists k, existing. split; [assumption|].
      match goal with Hf : find _ _ = Some _ |- _ =>
        apply find_some in Hf; destruct Hf as [Hin Heq]
      end.
      split; [assumption|]. now apply String.eqb_eq.
    + name_transact Htx. apply transact_run in Htx; [|reflexivity].
      destruct Htx as [(pid & s0 & Hr & _)|[e [s1 [_ [_ Hr]]]]].
      * discriminate.
      * destruct e; discriminate.
Qed.

(** The race of two requests for one SKU: the lookup of the second finds
    nothing, the first commits, the insert of the second is refused as a
    duplicate, and the second is answered with status 400. *)
Lemma integrity_error_is_400_witness :
  let run := create_product Decimal_of_int racing_widget
               (widget (JList [entry (JInt 1) (JInt 5)]))
               (new_session two_warehouses) in
  In (Refused INSERT_product (IntegrityError duplicate_sku)) (trace (snd run)) /\
  fst run = Ok (Error integrity_message, 400) /\
  committed (snd run) = racing_widget two_warehouses.
Proof.
  intros run.
  assert (Hrun : create_product Decimal_of_int racing_widget
                   (widget (JList [entry (JInt 1) (JInt 5)]))
                   (new_session two_warehouses) = (fst run, snd run))
    by (symmetry; apply surjective_pairing).
  assert (Hin : In (Refused INSERT_product (IntegrityError duplicate_sku))
                  (trace (snd run)))
    by (vm_compute; tauto).
  split; [exact Hin|].
  destruct (integrity_error_is_400 _ _ _ _ _ _ Hrun) as [Hrefused _].
  exact (Hrefused _ _ Hin).
Defined.

(** C2 as stated fails: here the store itself reports the duplicate SKU
    when the product is inserted, and the response is not the conflict with
    status 409 but the generic error with status 400. *)
Lemma duplicate_sku_at_insert_is_not_409 :
  let run := create_product Decimal_of_int racing_widget
               (widget (JList [entry (JInt 1) (JInt 5)]))
               (new_session two_warehouses) in
  trace (snd run)
  = [Done SELECT_product; Refused INSERT_product (IntegrityError duplicate_sku);
     Done ROLLBACK] /\
  fst run = Ok (Error integrity_message, 400) /\
  ~ (exists b, fst run = Ok (b, 409)).
Proof.
  cbv zeta. split; [reflexivity|]. split; [reflexivity|].
  intros [b Hb]. vm_compute in Hb. discriminate.
Qed.

(** ** One inventory row per requested warehouse *)

(** C7.  A create-product request that succeeds has a list of [k] warehouse
    entries and adds exactly [k] inventory rows to the store, the i-th of
    them referring to the new product and carrying the warehouse and the
    quantity of the i-th entry; it adds one product row, whose key is the
    one returned. *)
Theorem created_product_is_stocked Decimal_str others request_json d msg pid code s' :
  create_product Decimal_str others request_json (new_session d)
  = (Ok (Created msg pid, code), s') ->
  exists wqs rows,
    py_getitem request_json "warehouse_quantities" = Ok (JList wqs) /\
    inventory (committed s') = inventory (others d) ++ rows /\
    List.length rows = List.length wqs /\
    Forall2 (stocks pid) rows wqs /\
    exists p, products (committed s') = products (others d) ++ [p] /\ product_id p = pid.
Proof.
  intros Hrun. apply create_product_exit in Hrun.
  assert (Hdata : request_data request_json = request_json).
  { unfold request_data in *. destruct (truthy request_json); [reflexivity|].
    inversion Hrun; subst; discriminate. }
  rewrite Hdata in Hrun.
  inversion Hrun; subst.
  name_transact Htx. apply transact_run in Htx; [|reflexivity].
  destruct Htx as [(pid' & s0 & Hr & Hw & ->)|[e [s1 [_ [_ Hr]]]]].
  - inversion Hr. subst. clear Hr.
    apply write_product_run in Hw; [|reflexivity].
    destruct Hw as (_ & _ & [p (Hp & Hpid & _)] & [rows (Hi & Hrows & _)] & _).
    unfold view in Hp, Hi. cbn [transaction committed] in Hp, Hi |- *.
    match goal with
    | Hq : py_getitem _ "warehouse_quantities" = Ok (JList ?l) |- _ => exists l, rows
    end.
    split; [assumption|]. split; [assumption|].
    split; [eapply Forall2_length; eassumption|].
    split; [assumption|]. now exists p.
  - destruct e; discriminate.
Qed.

Lemma created_product_is_stocked_witness :
  exists rows,
    inventory (committed (snd (create_product Decimal_of_int alone
        (widget (JList [entry (JInt 1) (JInt 5); entry (JInt 2) (JInt 7)]))
        (new_session two_warehouses)))) = rows /\
    List.length rows = 2%nat /\
    Forall2 (stocks 1) rows [entry (JInt 1) (JInt 5); entry (JInt 2) (JInt 7)].
Proof.
  destruct (created_product_is_stocked Decimal_of_int alone
              (widget (JList [entry (JInt 1) (JInt 5); entry (JInt 2) (JInt 7)]))
              two_warehouses "Product created" 1 201
              (snd (create_product Decimal_of_int alone
                      (widget (JList [entry (JInt 1) (JInt 5); entry (JInt 2) (JInt 7)]))
                      (new_session two_warehouses))))
    as [wqs [rows (Hwq & Hi & Hlen & Hrows & _)]].
  - vm_compute. reflexivity.
  - cbn in Hwq. inversion Hwq. subst wqs.
    exists rows. split; [exact Hi|]. split; [exact Hlen | exact Hrows].
Defined.

(** ** Validation and the store *)

(** C8, as the code has it.  The required fields and the price are checked
    before any store access: a request that fails one of these checks
    leaves the session exactly as it was, nothing read and nothing written.
    The entries of [warehouse_quantities] are checked after the lookup of
    the SKU: a request that fails that check is never written, the durable
    state is unchanged and no transaction is open, but the store may have
    been read by the lookup, which is then the only statement sent. *)
Theorem validation_before_write Decimal_str others request_json d r s' :
  create_product Decimal_str others request_json (new_session d) = (r, s') ->
  let data := request_data request_json in
  ((first_missing data required_fields <> Ok None
    \/ (forall price, parse_price Decimal_str data <> Ok (Some price))) ->
   s' = new_session d) /\
  (quantities_acceptable data = false ->
   committed s' = d /\ transaction s' = None /\ pending s' = [] /\
   (trace s' = [] \/ exists ev, trace s' = [ev] /\ about_lookup ev)).
Proof.
  intros Hrun data. apply create_product_exit in Hrun. fold data in Hrun.
  split.
  - intros [Hmiss|Hprice]; inversion Hrun; subst; try reflexivity;
      try congruence;
      match goal with Hp : parse_price _ _ = Ok (Some ?p) |- _ =>
        exfalso; exact (Hprice p Hp)
      end.
  - unfold quantities_acceptable. intros Hq.
    inversion Hrun; subst; cbn [committed transaction pending trace new_session];
      try (repeat split; try reflexivity; left; reflexivity);
      try (repeat split; try reflexivity; right; eexists; split; [reflexivity|];
           unfold about_lookup; eauto).
    exfalso.
    match goal with Hw : py_getitem data _ = Ok (JList ?l) |- _ =>
      rewrite Hw in Hq; destruct l; [congruence|]
    end.
    match goal with Hrej : existsb _ _ = false |- _ => rewrite Hrej in Hq end.
    discriminate.
Qed.

Lemma validation_before_write_witness :
  snd (create_product Decimal_of_int alone
         (JDict [("name", JStr "Widget"); ("sku", JStr "W-1")])
         (new_session two_warehouses))
  = new_session two_warehouses
  /\
  trace (snd (create_product Decimal_of_int alone
                (widget (JList [entry (JInt 1) (JInt (-5))]))
                (new_session two_warehouses)))
  = [Done SELECT_product].
Proof.
  split.
  - refine (proj1
      (validation_before_write Decimal_of_int alone
         (JDict [("name", JStr "Widget"); ("sku", JStr "W-1")]) two_warehouses
         _ _ (surjective_pairing _)) _).
    left. vm_compute. discriminate.
  - destruct (proj2
      (validation_before_write Decimal_of_int alone
         (widget (JList [entry (JInt 1) (JInt (-5))])) two_warehouses
         _ _ (surjective_pairing _)) eq_refl) as (_ & _ & _ & Htrace).
    reflexivity.
Defined.

(** C8 as stated fails: these two requests are structurally invalid in
    their warehouse quantities, and yet the store has been read before they
    are answered; when the SKU is already stored, the answer is even the
    conflict of the lookup and the quantities are not looked at. *)
Lemma store_read_before_quantities_checked :
  let rejected := create_product Decimal_of_int alone (widget (JList []))
                    (new_session two_warehouses) in
  let conflict := create_product Decimal_of_int alone (widget (JStr "none"))
                    (new_session (racing_widget two_warehouses)) in
  quantities_acceptable (widget (JList [])) = false /\
  fst rejected = Ok (Error "warehouse_quantities must be a non-empty list.", 400) /\
  trace (snd rejected) = [Done SELECT_product] /\
  quantities_acceptable (widget (JStr "none")) = false /\
  fst conflict = Ok (Error "SKU must be unique.", 409) /\
  trace (snd conflict) = [Done SELECT_product].
Proof.
  cbv zeta. repeat split; reflexivity.
Qed.

(** C9.  The test on an entry asks only that the key [warehouse_id] be
    there, whatever its value, and takes a boolean for an integer quantity:
    an entry whose warehouse is any JSON value and whose quantity is a
    boolean is not rejected, and the request with the entry
    [{warehouse_id: "not-an-id", quantity: true}] is validated and goes on
    to the store, which is sent the INSERT of the product. *)
Theorem boolean_quantity_passes_validation :
  (forall wid b, entry_rejected (entry wid (JBool b)) = false) /\
  (forall Decimal_str others price,
      Decimal_str (JInt 10) = Some price ->
      let request := widget (JList [entry (JStr "not-an-id") (JBool true)]) in
      quantities_acceptable request = true /\
      exists r s',
        create_product Decimal_str others request (new_session two_warehouses) = (r, s')
        /\ s' <> new_session two_warehouses
        /\ exists ev, In ev (trace s') /\ ~ about_lookup ev).
Proof.
  split.
  - intros wid b. unfold entry_rejected, entry. cbn. now destruct b.
  - intros Decimal_str others price Hprice request.
    split; [reflexivity|].
    destruct (create_product Decimal_str others request (new_session two_warehouses))
      as [r s'] eqn:Hrun.
    exists r, s'. split; [reflexivity|].
    apply create_product_exit in Hrun.
    assert (Hp : parse_price Decimal_str (request_data request) = Ok (Some price))
      by (cbn; now rewrite Hprice).
    subst request.
    inversion Hrun; subst; cbn in *;
      repeat match goal with
             | Heq : Ok _ = Ok _ |- _ => inversion Heq; subst; clear Heq
             end;
      cbn in *; try congruence; try discriminate.
    name_transact Htx. apply transact_run in Htx; [|reflexivity].
    destruct Htx as [(pid & s0 & _ & Hw & ->)|[e [s1 [Hw [-> _]]]]].
    + apply write_product_run in Hw; [|reflexivity].
      destruct Hw as (_ & _ & _ & _ & t & Ht). cbn [trace] in Ht |- *.
      split.
      { intros Heq. apply (f_equal trace) in Heq. cbn [trace new_session] in Heq.
        destruct (trace s0); discriminate. }
      exists (Done COMMIT). split.
      { rewrite Ht. apply in_or_app. left. cbn. right. apply in_or_app. right. now left. }
      intros [Hd|[e Hd]]; discriminate.
    + cbn [trace]. split.
      { intros Heq. apply (f_equal trace) in Heq. cbn in Heq.
        destruct (trace s1); discriminate. }
      exists (Done ROLLBACK). split.
      { apply in_or_app. right. now left. }
      intros [Hd|[e' Hd]]; discriminate.
Qed.

Lemma boolean_quantity_passes_validation_witness :
  exists s',
    snd (create_product Decimal_of_int alone
           (widget (JList [entry (JStr "not-an-id") (JBool true)]))
           (new_session two_warehouses)) = s'
    /\ s' <> new_session two_warehouses.
Proof.
  destruct (proj2 boolean_quantity_passes_validation Decimal_of_int alone _ eq_refl)
    as (_ & r & s' & Hrun & Hs & _).
  exists s'. split; [|exact Hs].
  now rewrite Hrun.
Defined.

(** ** The rows of the low-stock query *)

Lemma in__spec x l : in_ x l = true <-> In x l.
Proof.
  unfold in_. rewrite existsb_exists. split.
  - intros [y [Hin Heq]]. apply Z.eqb_eq in Heq. now subst.
  - intros Hin. exists x. split; [assumption | apply Z.eqb_refl].
Qed.

(** A warehouse id is in the list the handler computes exactly when a
    warehouse of the company has it. *)
Lemma in_warehouse_ids d company_id wid :
  In wid (warehouse_ids d company_id) <->
  exists w, In w (warehouses d) /\ warehouse_id w = wid /\ warehouse_company w = company_id.
Proof.
  unfold warehouse_ids, company_warehouses. rewrite in_map_iff. split.
  - intros [w [Hid Hin]]. apply filter_In in Hin. destruct Hin as [Hin Hc].
    apply Z.eqb_eq in Hc. now exists w.
  - intros [w [Hin [Hid Hc]]]. exists w. split; [assumption|].
    apply filter_In. split; [assumption|]. now apply Z.eqb_eq.
Qed.

Lemma in_window_sales d since k c :
  In c (window_sales d since k) <->
  In c (inventory_changes d) /\ change_type c = "sale" /\ since <= occurred_at c
  /\ change_inventory_id c = k.
Proof.
  unfold window_sales. rewrite filter_In, !andb_true_iff, String.eqb_eq, Z.leb_le, Z.eqb_eq.
  tauto.
Qed.

Lemma in_sales_rows d since wids c i :
  In (c, i) (sales_rows d since wids) <->
  In c (window_sales d since (inventory_id i)) /\ In i (inventory d)
  /\ In (inv_warehouse_id i) wids.
Proof.
  unfold sales_rows. rewrite filter_In, in_flat_map, in_window_sales.
  cbn [fst snd]. rewrite !andb_true_iff, String.eqb_eq, Z.leb_le, in__spec.
  split.
  - intros [[c' [Hc Hin]] [[Hsale Hsince] Hw]].
    apply in_map_iff in Hin. destruct Hin as [i' [Heq Hin]].
    inversion Heq. subst c' i'. apply filter_In in Hin. destruct Hin as [Hi Hid].
    apply Z.eqb_eq in Hid. tauto.
  - intros [[Hc [Hsale [Hsince Hid]]] [Hi Hw]].
    split; [|tauto]. exists c. split; [assumption|].
    apply in_map_iff. exists i. split; [reflexivity|].
    apply filter_In. split; [assumption|]. now apply Z.eqb_eq.
Qed.

(** The subquery has a row for an inventory id exactly when some ledger row
    counts for an inventory row with that id in one of the warehouses. *)
Lemma in_sales_subq {dialect : Dialect} d since wids row :
  In row (sales_subq d since wids) <->
  row = sales_group (sales_rows d since wids) (sales_inventory_id row) /\
  exists c i, In (c, i) (sales_rows d since wids) /\ inventory_id i = sales_inventory_id row.
Proof.
  unfold sales_subq. cbv zeta. rewrite in_map_iff. split.
  - intros [k [Hrow Hk]]. apply nodup_In in Hk. apply in_map_iff in Hk.
    destruct Hk as [[c i] [Hid Hin]]. cbn [snd] in Hid. subst row k.
    cbn [sales_group sales_inventory_id]. split; [reflexivity|]. now exists c, i.
  - intros [Hrow [c [i [Hin Hid]]]].
    exists (sales_inventory_id row). split; [now symmetry|].
    apply nodup_In. apply in_map_iff. exists (c, i). now split.
Qed.

Lemma in_outerjoin_sales i sales o :
  In o (outerjoin_sales i sales) <->
  (o = None /\ forall row, In row sales -> sales_inventory_id row <> inventory_id i)
  \/ (exists row, o = Some row /\ In row sales /\ sales_inventory_id row = inventory_id i).
Proof.
  unfold outerjoin_sales.
  destruct (filter _ sales) as [|m ms] eqn:Hf.
  - split.
    + intros [<-|[]]. left. split; [reflexivity|].
      intros row Hin Hid.
      assert (Hm : In row (filter (fun r => inventory_id i =? sales_inventory_id r) sales)).
      { apply filter_In. split; [assumption|]. apply Z.eqb_eq. now symmetry. }
      rewrite Hf in Hm. contradiction.
    + intros [[-> _]|[row [_ [Hin Hid]]]]; [now left|].
      assert (Hm : In row (filter (fun r => inventory_id i =? sales_inventory_id r) sales)).
      { apply filter_In. split; [assumption|]. apply Z.eqb_eq. now symmetry. }
      rewrite Hf in Hm. contradiction.
  - rewrite <- Hf. rewrite in_map_iff. split.
    + intros [row [<- Hin]]. apply filter_In in Hin. destruct Hin as [Hin Hid].
      apply Z.eqb_eq in Hid. right. exists row. now split.
    + intros [[-> Hnone]|[row [-> [Hin Hid]]]].
      * exfalso. assert (Hm : In m (filter (fun r => inventory_id i =? sales_inventory_id r) sales))
          by (rewrite Hf; now left).
        apply filter_In in Hm. destruct Hm as [Hin Hid]. apply Z.eqb_eq in Hid.
        now apply (Hnone m Hin).
      * exists row. split; [reflexivity|]. apply filter_In. split; [assumption|].
        apply Z.eqb_eq. now symmetry.
Qed.

Lemma in_joins d sales r :
  In r (joins d sales) <->
  In (of_product r) (products d) /\
  In (of_inventory r) (inventory d) /\
  inv_product_id (of_inventory r) = product_id (of_product r) /\
  In (of_warehouse r) (warehouses d) /\
  inv_warehouse_id (of_inventory r) = warehouse_id (of_warehouse r) /\
  In (of_sales r) (outerjoin_sales (of_inventory r) sales) /\
  In (of_supplier r) (suppliers d) /\
  supplier_ref (of_product r) = Some (supplier_id (of_supplier r)).
Proof.
  unfold joins. rewrite in_flat_map. split.
  - intros [p [Hp Hin]].
    apply in_flat_map in Hin. destruct Hin as [i [Hi Hin]].
    apply in_flat_map in Hin. destruct Hin as [w [Hw Hin]].
    apply in_flat_map in Hin. destruct Hin as [o [Ho Hin]].
    apply in_map_iff in Hin. destruct Hin as [s [<- Hs]].
    apply filter_In in Hi, Hw, Hs. cbn [of_product of_inventory of_warehouse of_sales of_supplier].
    destruct Hi as [Hi Hpi], Hw as [Hw Hiw], Hs as [Hs Href].
    apply Z.eqb_eq in Hpi, Hiw.
    destruct (supplier_ref p) as [x|]; [|discriminate].
    cbn in Href. apply Z.eqb_eq in Href. subst x. tauto.
  - destruct r as [p i w o s]. cbn [of_product of_inventory of_warehouse of_sales of_supplier].
    intros (Hp & Hi & Hpi & Hw & Hiw & Ho & Hs & Href).
    exists p. split; [assumption|].
    apply in_flat_map. exists i. split; [apply filter_In; split; [assumption | now apply Z.eqb_eq]|].
    apply in_flat_map. exists w. split; [apply filter_In; split; [assumption | now apply Z.eqb_eq]|].
    apply in_flat_map. exists o. split; [assumption|].
    apply in_map_iff. exists s. split; [reflexivity|].
    apply filter_In. split; [assumption|]. rewrite Href. cbn. apply Z.eqb_refl.
Qed.

Lemma sql_lt_true a b :
  is_true (sql_lt a b) = true <-> exists x y, a = Some x /\ b = Some y /\ x < y.
Proof.
  destruct a as [x|], b as [y|]; cbn; split;
    try discriminate; try (intros (? & ? & ? & ? & ?); discriminate).
  - intros H. apply Z.ltb_lt in H. now exists x, y.
  - intros (x' & y' & Hx & Hy & Hlt). inversion Hx. inversion Hy. subst.
    now apply Z.ltb_lt.
Qed.

Lemma in_low_stock_rows {dialect : Dialect} d now company_id r :
  In r (low_stock_rows d now company_id) <->
  In r (joins d (sales_subq d (now - timedelta_days RECENT_SALES_DAYS)
                   (warehouse_ids d company_id)))
  /\ where_low_stock (warehouse_ids d company_id) r = true.
Proof. unfold low_stock_rows. cbv zeta. apply filter_In. Qed.

(** The alerts of the response are built, one by one and in order, from the
    rows of the query. *)
Lemma alerts_of_rows {dialect : Dialect} d now company_id :
  alerts (fst (low_stock_alerts d now company_id))
  = map (fun r => build_alert (select_columns r)) (low_stock_rows d now company_id).
Proof.
  unfold low_stock_alerts, results. cbn [fst alerts]. now rewrite map_map.
Qed.

(** No row of the subquery without a ledger row that counts. *)
Lemma no_sales_no_row {dialect : Dialect} d since wids k :
  window_sales d since k = [] ->
  forall row, In row (sales_subq d since wids) -> sales_inventory_id row <> k.
Proof.
  intros Hnone row Hin Hk. apply in_sales_subq in Hin.
  destruct Hin as [_ [c [i [Hci Hid]]]]. apply in_sales_rows in Hci.
  destruct Hci as [Hc _]. rewrite Hid, Hk, Hnone in Hc. contradiction.
Qed.

(** ** Which rows raise an alert *)

(** The row the query returns for a product, one of its inventory rows, the
    warehouse, the sales and the supplier that go with them, once the WHERE
    clause holds. *)
Lemma low_stock_row_intro {dialect : Dialect} d now company_id p i w row s :
  In p (products d) -> In i (inventory d) -> inv_product_id i = product_id p ->
  In w (warehouses d) -> warehouse_id w = inv_warehouse_id i ->
  warehouse_company w = company_id ->
  (exists q t, quantity i = Some q /\ low_stock_thresh p = Some t /\ q < t) ->
  In row (sales_subq d (now - timedelta_days RECENT_SALES_DAYS)
            (warehouse_ids d company_id)) ->
  sales_inventory_id row = inventory_id i -> 0 < total_sales row ->
  In s (suppliers d) -> supplier_ref p = Some (supplier_id s) ->
  In (mkJoined p i w (Some row) s) (low_stock_rows d now company_id).
Proof.
  intros Hp Hi Hpi Hw Hid Hc Hlt Hrow Hrid Hpos Hs Href.
  apply in_low_stock_rows. split.
  - apply in_joins. cbn [of_product of_inventory of_warehouse of_sales of_supplier].
    repeat split; try assumption; try (now symmetry).
    apply in_outerjoin_sales. right. now exists row.
  - unfold where_low_stock. cbn [of_product of_inventory of_sales].
    rewrite !andb_true_iff. repeat split.
    + apply in__spec. apply in_warehouse_ids. now exists w.
    + now apply sql_lt_true.
    + now apply Z.ltb_lt.
Qed.

(** C3, as the code has it.  The query returns a row for a product and one
    of its inventory rows if and only if the warehouse of the inventory row
    belongs to the company, the quantity is strictly below the threshold of
    the product (both being there), the subquery has a strictly positive
    total of recent sales for the inventory id, and the supplier reference
    of the product matches a supplier row.  In particular an inventory row
    with no sale in the window has no row, however low its stock, and
    neither has one whose quantity is at or above the threshold, whatever
    its sales. *)
Theorem low_stock_row_iff {dialect : Dialect} d now company_id p i :
  let since := now - timedelta_days RECENT_SALES_DAYS in
  let wids := warehouse_ids d company_id in
  ((exists r, In r (low_stock_rows d now company_id)
              /\ of_product r = p /\ of_inventory r = i)
   <->
   In p (products d) /\ In i (inventory d) /\ inv_product_id i = product_id p /\
   (exists w, In w (warehouses d) /\ warehouse_id w = inv_warehouse_id i
              /\ warehouse_company w = company_id) /\
   (exists q t, quantity i = Some q /\ low_stock_thresh p = Some t /\ q < t) /\
   (exists row, In row (sales_subq d since wids)
                /\ sales_inventory_id row = inventory_id i /\ 0 < total_sales row) /\
   (exists s, In s (suppliers d) /\ supplier_ref p = Some (supplier_id s)))
  /\
  (window_sales d since (inventory_id i) = [] ->
   ~ exists r, In r (low_stock_rows d now company_id) /\ of_inventory r = i)
  /\
  (forall q t, quantity i = Some q -> low_stock_thresh p = Some t -> t <= q ->
   ~ exists r, In r (low_stock_rows d now company_id)
               /\ of_product r = p /\ of_inventory r = i).
Proof.
  intros since wids.
  assert (Hfwd : forall r, In r (low_stock_rows d now company_id) ->
            In (of_product r) (products d) /\ In (of_inventory r) (inventory d) /\
            inv_product_id (of_inventory r) = product_id (of_product r) /\
            In (inv_warehouse_id (of_inventory r)) wids /\
            (exists q t, quantity (of_inventory r) = Some q
                         /\ low_stock_thresh (of_product r) = Some t /\ q < t) /\
            (exists row, In row (sales_subq d since wids)
                         /\ sales_inventory_id row = inventory_id (of_inventory r)
                         /\ 0 < total_sales row) /\
            (exists s, In s (suppliers d)
                       /\ supplier_ref (of_product r) = Some (supplier_id s))).
  { intros r Hr. apply in_low_stock_rows in Hr. destruct Hr as [Hj Hw].
    apply in_joins in Hj. destruct Hj as (Hp & Hi & Hpi & _ & _ & Ho & Hs & Href).
    unfold where_low_stock in Hw. apply andb_true_iff in Hw. destruct Hw as [Hw Hsales].
    apply andb_true_iff in Hw. destruct Hw as [Hin Hlt].
    apply in__spec in Hin. apply sql_lt_true in Hlt.
    repeat split; try assumption.
    - destruct (of_sales r) as [row|] eqn:Hrow; [|discriminate].
      apply Z.ltb_lt in Hsales.
      apply in_outerjoin_sales in Ho. destruct Ho as [[Hnone _]|[row' [Heq [Hin' Hid]]]];
        [discriminate|].
      inversion Heq. subst row'. now exists row.
    - now exists (of_supplier r). }
  split; [split|split].
  - intros [r (Hr & <- & <-)]. apply Hfwd in Hr.
    destruct Hr as (Hp & Hi & Hpi & Hin & Hlt & Hsales & Hsup).
    apply in_warehouse_ids in Hin. tauto.
  - intros (Hp & Hi & Hpi & [w (Hw & Hid & Hc)] & Hlt & [row (Hrow & Hrid & Hpos)]
            & [s (Hs & Href)]).
    exists (mkJoined p i w (Some row) s).
    cbn [of_product of_inventory]. split; [|now split].
    now apply low_stock_row_intro.
  - intros Hnone [r [Hr <-]]. apply Hfwd in Hr.
    destruct Hr as (_ & _ & _ & _ & _ & [row (Hrow & Hrid & _)] & _).
    exact (no_sales_no_row _ _ _ _ Hnone row Hrow Hrid).
  - intros q t Hq Ht Hle [r (Hr & <- & <-)]. apply Hfwd in Hr.
    destruct Hr as (_ & _ & _ & _ & (q' & t' & Hq' & Ht' & Hlt) & _).
    rewrite Hq in Hq'. rewrite Ht in Ht'. inversion Hq'. inversion Ht'. lia.
Qed.

(** The widget is five in stock under a threshold of ten, sold three times
    yesterday and supplied by Acme: the query has a row for it. *)
Lemma low_stock_row_iff_witness :
  exists r, In r (low_stock_rows
                    (depot (mkProduct 1 "Widget" "W-1" None (Some 10) (Some 1)) 5)
                    day_101 7)
            /\ product_id (of_product r) = 1.
Proof.
  set (p := mkProduct 1 "Widget" "W-1" None (Some 10) (Some 1)).
  destruct (proj2 (proj1 (low_stock_row_iff (depot p 5) day_101 7 p
                            (mkInventory 1 1 1 (Some 5)))))
    as [r (Hr & Hp & _)].
  - split; [now left|]. split; [now left|]. split; [reflexivity|].
    split; [exists (mkWarehouse 1 7 "Main"); repeat split; now left|].
    split; [exists 5, 10; repeat split; lia|].
    split.
    + eexists. split; [vm_compute; left; reflexivity|]. split; [reflexivity|].
      cbn. lia.
    + exists acme. split; [now left | reflexivity].
  - exists r. split; [exact Hr|]. now rewrite Hp.
Defined.

(** C3 as stated fails: this product is understocked in a warehouse of the
    company and was sold in the window, and has no row, because its
    supplier reference matches no supplier. *)
Lemma understocked_and_sold_without_alert :
  let p := mkProduct 1 "Gizmo" "Z-1" None (Some 10) None in
  let i := mkInventory 1 1 1 (Some 2) in
  let d := depot p 2 in
  let wids := warehouse_ids d 7 in
  In p (products d) /\ In i (inventory d) /\ inv_product_id i = product_id p /\
  In (inv_warehouse_id i) wids /\
  is_true (sql_lt (quantity i) (low_stock_thresh p)) = true /\
  (exists row, In row (sales_subq d (day_101 - timedelta_days RECENT_SALES_DAYS) wids)
               /\ sales_inventory_id row = inventory_id i /\ 0 < total_sales row) /\
  low_stock_rows d day_101 7 = [] /\
  low_stock_alerts d day_101 7 = (mkAlerts [] 0, 200).
Proof.
  cbv zeta. split; [now left|]. split; [now left|]. split; [reflexivity|].
  split; [now left|]. split; [reflexivity|].
  split; [|split; reflexivity].
  eexists. split; [vm_compute; left; reflexivity|]. split; [reflexivity|]. cbn. lia.
Qed.

(** ** The sales of an inventory row *)

Lemma filter_none {A} (f : A -> bool) l :
  (forall x, In x l -> f x = false) -> filter f l = [].
Proof.
  induction l as [|a l IH]; intros H; [reflexivity|].
  cbn. rewrite (H a (or_introl eq_refl)). apply IH. intros x Hx. apply H. now right.
Qed.

(** A key that identifies its row selects that row alone. *)
Lemma filter_key {A} (key : A -> Z) l x :
  NoDup (map key l) -> In x l ->
  filter (fun y => key x =? key y) l = [x].
Proof.
  induction l as [|a l IH]; intros Hnd Hin; [contradiction|].
  cbn [map] in Hnd. inversion Hnd as [|? ? Hnotin Hnd']. subst.
  cbn [filter]. destruct Hin as [->|Hin].
  - rewrite Z.eqb_refl. f_equal. apply filter_none.
    intros y Hy. apply Z.eqb_neq. intros Heq. apply Hnotin. rewrite Heq.
    now apply in_map.
  - destruct (key x =? key a) eqn:Heq.
    + apply Z.eqb_eq in Heq. exfalso. apply Hnotin. rewrite <- Heq. now apply in_map.
    + now apply IH.
Qed.

(** Under the primary key of the inventory, the ledger rows the subquery
    groups under the id of an inventory row of the company are the ledger
    rows that count for it, each once and in the order of the ledger. *)
Lemma grouped_rows d since wids i :
  NoDup (map inventory_id (inventory d)) ->
  In i (inventory d) ->
  In (inv_warehouse_id i) wids ->
  map fst (filter (fun ci => inventory_id (snd ci) =? inventory_id i)
             (sales_rows d since wids))
  = window_sales d since (inventory_id i).
Proof.
  intros Hkey Hi Hw. unfold sales_rows, window_sales.
  induction (inventory_changes d) as [|c cs IH]; [reflexivity|].
  cbn [flat_map]. rewrite !filter_app, map_app, IH. clear IH.
  cbn [filter].
  destruct (change_inventory_id c =? inventory_id i) eqn:Hid.
  - apply Z.eqb_eq in Hid.
    replace (filter (fun i0 => change_inventory_id c =? inventory_id i0) (inventory d))
      with [i]
      by (symmetry; rewrite Hid; now apply filter_key).
    cbn [map filter fst snd]. apply in__spec in Hw. rewrite Hw, !andb_true_r.
    destruct (String.eqb (change_type c) "sale" && (since <=? occurred_at c));
      cbn [filter snd]; [rewrite Z.eqb_refl|]; reflexivity.
  - rewrite andb_false_r.
    rewrite (filter_none (fun ci => inventory_id (snd ci) =? inventory_id i)); [reflexivity|].
    intros [c' i'] Hin. apply filter_In in Hin. destruct Hin as [Hin _].
    apply in_map_iff in Hin. destruct Hin as [i0 [Heq Hin]]. inversion Heq. subst c' i0.
    apply filter_In in Hin. destruct Hin as [_ Hj]. apply Z.eqb_eq in Hj.
    cbn [snd]. rewrite <- Hj. exact Hid.
Qed.

(** So the subquery has one row for such an inventory row when a ledger row
    counts for it: the sum of the negated deltas of those rows, and that
    sum divided by the length of the window. *)
Lemma sales_subq_row {dialect : Dialect} d since wids i :
  NoDup (map inventory_id (inventory d)) ->
  In i (inventory d) ->
  In (inv_warehouse_id i) wids ->
  window_sales d since (inventory_id i) <> [] ->
  let total :=
    sum_Z (map (fun c => quantity_delta c * -1) (window_sales d since (inventory_id i))) in
  In (mkSales (inventory_id i) total (divide total RECENT_SALES_DAYS))
     (sales_subq d since wids).
Proof.
  intros Hkey Hi Hw Hsome total.
  apply in_sales_subq. cbn [sales_inventory_id]. split.
  - unfold sales_group.
    assert (Ht : sum_Z (map (fun ci => quantity_delta (fst ci) * -1)
                     (filter (fun ci => inventory_id (snd ci) =? inventory_id i)
                        (sales_rows d since wids))) = total).
    { unfold total. rewrite <- (grouped_rows d since wids i Hkey Hi Hw).
      now rewrite map_map. }
    now rewrite Ht.
  - destruct (window_sales d since (inventory_id i)) as [|c cs] eqn:Hcs; [congruence|].
    exists c, i. split; [|reflexivity].
    apply in_sales_rows. rewrite Hcs. split; [now left|]. now split.
Qed.

(** The rows of the subquery are identified by their inventory id. *)
Lemma sales_subq_key {dialect : Dialect} d since wids row row' :
  In row (sales_subq d since wids) ->
  In row' (sales_subq d since wids) ->
  sales_inventory_id row' = sales_inventory_id row ->
  row' = row.
Proof.
  intros H H' Hid. apply in_sales_subq in H, H'.
  destruct H as [-> _], H' as [-> _]. cbn [sales_group sales_inventory_id] in Hid.
  now rewrite Hid.
Qed.

(** The sum the subquery takes is a net figure: the units sold less the
    units taken back. *)
Lemma negated_deltas_are_net cs :
  sum_Z (map (fun c => quantity_delta c * -1) cs) = units_sold cs - units_returned cs.
Proof.
  unfold units_sold, units_returned, sum_Z. induction cs as [|c cs IH]; [reflexivity|].
  cbn [map filter fold_right]. rewrite IH.
  destruct (quantity_delta c <? 0) eqn:Hneg; destruct (0 <? quantity_delta c) eqn:Hpos;
    cbn [map fold_right];
    try apply Z.ltb_lt in Hneg; try apply Z.ltb_lt in Hpos;
    try apply Z.ltb_ge in Hneg; try apply Z.ltb_ge in Hpos; lia.
Qed.

(** C5, as the code has it.  With the inventory ids identifying the
    inventory rows, the aggregation gives an inventory row of the company
    exactly one row when a sale was recorded against it in the window.  Its
    total is the sum of the negated deltas of those sales, a net figure: the
    sum of the magnitudes of the negative deltas less the sum of the
    positive ones, and so the units sold only when no sale carries a
    positive delta.  Its daily average is that total divided by the 30 days
    of the window, however the sales are spread over them, the quotient
    being the one the database returns.  An inventory id with no such
    ledger row has no row at all in the aggregation, and neither has the id
    of an inventory row held in a warehouse that is not queried. *)
Theorem sales_velocity {dialect : Dialect} d since wids i :
  NoDup (map inventory_id (inventory d)) ->
  In i (inventory d) ->
  let cs := window_sales d since (inventory_id i) in
  (cs = [] \/ ~ In (inv_warehouse_id i) wids ->
   forall row, In row (sales_subq d since wids) ->
               sales_inventory_id row <> inventory_id i)
  /\
  (cs <> [] -> In (inv_warehouse_id i) wids ->
   exists row,
     In row (sales_subq d since wids) /\
     sales_inventory_id row = inventory_id i /\
     total_sales row = sum_Z (map (fun c => quantity_delta c * -1) cs) /\
     total_sales row = units_sold cs - units_returned cs /\
     (total_sales row = units_sold cs <-> units_returned cs = 0) /\
     avg_daily_sales row = divide (total_sales row) 30 /\
     forall row', In row' (sales_subq d since wids) ->
                  sales_inventory_id row' = inventory_id i -> row' = row).
Proof.
  intros Hkey Hi cs. split.
  - intros [Hnone|Hout]; [now apply no_sales_no_row|].
    intros row Hrow Hid. apply in_sales_subq in Hrow.
    destruct Hrow as [_ [c [i' [Hci Hid']]]]. apply in_sales_rows in Hci.
    destruct Hci as (_ & Hi' & Hw'). apply Hout.
    replace i with i'; [exact Hw'|].
    pose proof (filter_key inventory_id _ i Hkey Hi) as Hf.
    assert (Hin : In i' (filter (fun y => inventory_id i =? inventory_id y) (inventory d))).
    { apply filter_In. split; [assumption|]. apply Z.eqb_eq. congruence. }
    rewrite Hf in Hin. destruct Hin as [Hin|[]]. now symmetry.
  - intros Hsome Hw.
    pose proof (sales_subq_row d since wids i Hkey Hi Hw Hsome) as Hrow.
    cbv zeta in Hrow. eexists. split; [exact Hrow|].
    cbn [sales_inventory_id total_sales avg_daily_sales].
    split; [reflexivity|]. split; [reflexivity|].
    split; [apply negated_deltas_are_net|].
    split; [rewrite negated_deltas_are_net; subst cs; lia|].
    split; [reflexivity|].
    intros row' Hrow' Hid. now apply (sales_subq_key _ _ _ _ _ Hrow Hrow').
Qed.

(** Two sales against the widget, of three and of four units, both on one
    day of the window: seven units sold, and an average of 7/30 a day when
    the division is exact. *)
Lemma sales_velocity_witness :
  let d := mkDB [] [mkInventory 1 1 1 (Some 5)] [mkWarehouse 1 7 "Main"] []
             [mkInventoryChange 1 1 (-3) "sale" (timedelta_days 100);
              mkInventoryChange 2 1 (-4) "sale" (timedelta_days 100);
              mkInventoryChange 3 1 (-9) "sale" (timedelta_days 60);
              mkInventoryChange 4 1 20 "restock" (timedelta_days 100)] in
  exists row,
    In row (sales_subq d (timedelta_days 71) [1]) /\
    total_sales row = 7 /\
    avg_daily_sales row = (inject_Z 7 / inject_Z 30)%Q.
Proof.
  intros d.
  destruct (sales_velocity d (timedelta_days 71) [1] (mkInventory 1 1 1 (Some 5)))
    as [_ Hsome].
  - cbn. constructor; [intros [] | constructor].
  - now left.
  - destruct Hsome as [row (Hin & _ & Htotal & _ & _ & Havg & _)].
    + vm_compute. discriminate.
    + now left.
    + exists row. split; [exact Hin|].
      assert (Ht : total_sales row = 7) by (rewrite Htotal; reflexivity).
      split; [exact Ht|]. rewrite Havg, Ht. reflexivity.
Defined.

(** C5 as stated fails: a sale of five units and a ledger row of type
    [sale] that gives two units back, both in the window.  The magnitudes
    of the negative deltas sum to 5; the aggregation has 3 as the total, and
    the average is taken of 3. *)
Lemma returned_units_are_subtracted :
  let d := mkDB [] [mkInventory 1 1 1 (Some 5)] [mkWarehouse 1 7 "Main"] []
             [mkInventoryChange 1 1 (-5) "sale" (timedelta_days 100);
              mkInventoryChange 2 1 2 "sale" (timedelta_days 100)] in
  let cs := window_sales d (timedelta_days 71) 1 in
  map quantity_delta cs = [-5; 2] /\
  units_sold cs = 5 /\
  (forall dialect : Dialect,
      sales_subq (dialect := dialect) d (timedelta_days 71) [1]
      = [mkSales 1 3 (divide 3 30)]) /\
  ~ (exists row, In row (sales_subq d (timedelta_days 71) [1])
                 /\ total_sales row = units_sold cs).
Proof.
  cbv zeta. split; [reflexivity|]. split; [reflexivity|].
  split; [intros dialect; reflexivity|].
  intros [row [[<-|[]] Heq]]. vm_compute in Heq. discriminate.
Qed.

(** ** The estimate of the days left *)

(** The test of the loop on the average: a positive number passes it, and
    a number that is not positive does not. *)
Lemma positive_is_truthy (a : Q) :
  (0 < a)%Q -> negb (Qeq_bool a 0) && negb (Qle_bool a 0) = true.
Proof.
  intros H. apply andb_true_intro. split; apply negb_true_iff.
  - destruct (Qeq_bool a 0) eqn:E; [|reflexivity].
    apply Qeq_bool_iff in E. rewrite E in H. discriminate.
  - destruct (Qle_bool a 0) eqn:E; [|reflexivity].
    apply Qle_bool_iff in E. exfalso. exact (Qlt_not_le _ _ H E).
Qed.

Lemma not_positive_is_falsy (a : Q) :
  (a <= 0)%Q -> negb (Qeq_bool a 0) && negb (Qle_bool a 0) = false.
Proof.
  intros H. apply Qle_bool_iff in H. rewrite H. cbn. apply andb_false_r.
Qed.

(** The row of the query for an inventory row carries the row the subquery
    has for its inventory id. *)
Lemma sales_of_row {dialect : Dialect} d now company_id r :
  In r (low_stock_rows d now company_id) ->
  exists sr,
    of_sales r = Some sr /\
    In sr (sales_subq d (now - timedelta_days RECENT_SALES_DAYS) (warehouse_ids d company_id)) /\
    sales_inventory_id sr = inventory_id (of_inventory r) /\
    In (inv_warehouse_id (of_inventory r)) (warehouse_ids d company_id).
Proof.
  intros Hr. apply in_low_stock_rows in Hr. destruct Hr as [Hj Hw].
  apply in_joins in Hj. destruct Hj as (_ & _ & _ & _ & _ & Ho & _).
  unfold where_low_stock in Hw. rewrite !andb_true_iff in Hw. destruct Hw as [[Hin _] Hpos].
  apply in__spec in Hin.
  destruct (of_sales r) as [sr|]; [|discriminate].
  apply in_outerjoin_sales in Ho. destruct Ho as [[Hnone _]|[sr' [Heq [Hsub Hid]]]];
    [discriminate|].
  inversion Heq. subst sr'. now exists sr.
Qed.

(** C4, as the code has it.  A product with five units in stock under a
    threshold of ten, in a warehouse of the company, with one sale of three
    units in the window, is in the alert list if and only if its supplier
    reference matches a supplier row.  Its row then carries, as average
    daily sales, the quotient of 3 by 30 as the database returns it, and its
    alert gives the stock as 5 and the threshold as 10.  When the quotient
    is 0.1 exactly, the alert gives 50 days until the stock is out; when it
    is 0, as it is when the database divides integers, the alert gives no
    estimate. *)
Theorem alert_inclusion {dialect : Dialect} d now company_id p i w c :
  NoDup (map inventory_id (inventory d)) ->
  In p (products d) -> In i (inventory d) -> In w (warehouses d) ->
  inv_product_id i = product_id p ->
  warehouse_id w = inv_warehouse_id i -> warehouse_company w = company_id ->
  quantity i = Some 5 -> low_stock_thresh p = Some 10 ->
  window_sales d (now - timedelta_days RECENT_SALES_DAYS) (inventory_id i) = [c] ->
  quantity_delta c = -3 ->
  ((exists r, In r (low_stock_rows d now company_id) /\ of_product r = p /\ of_inventory r = i)
   <-> (exists s, In s (suppliers d) /\ supplier_ref p = Some (supplier_id s)))
  /\
  (forall r,
      In r (low_stock_rows d now company_id) -> of_product r = p -> of_inventory r = i ->
      let a := build_alert (select_columns r) in
      In a (alerts (fst (low_stock_alerts d now company_id))) /\
      row_avg_daily_sales (select_columns r) = Some (divide 3 30) /\
      current_stock a = 5 /\ threshold a = 10 /\
      ((divide 3 30 == 1 # 10)%Q -> days_until_stockout a = Some 50) /\
      ((divide 3 30 == 0)%Q -> days_until_stockout a = None)).
Proof.
  intros Hkey Hp Hi Hw Hpi Hid Hc Hq Ht Hsales Hdelta.
  assert (Hin : In (inv_warehouse_id i) (warehouse_ids d company_id))
    by (apply in_warehouse_ids; now exists w).
  assert (Hsome : window_sales d (now - timedelta_days RECENT_SALES_DAYS) (inventory_id i)
                  <> []) by (rewrite Hsales; discriminate).
  pose proof (sales_subq_row d _ _ i Hkey Hi Hin Hsome) as Hrow.
  cbv zeta in Hrow. rewrite Hsales in Hrow. cbn [map sum_Z fold_right] in Hrow.
  rewrite Hdelta in Hrow. change (-3 * -1 + 0) with 3 in Hrow.
  split; [split|].
  - intros [r (Hr & <- & <-)]. apply in_low_stock_rows in Hr. destruct Hr as [Hj _].
    apply in_joins in Hj. destruct Hj as (_ & _ & _ & _ & _ & _ & Hs & Href).
    now exists (of_supplier r).
  - intros [s [Hs Href]].
    exists (mkJoined p i w (Some (mkSales (inventory_id i) 3 (divide 3 RECENT_SALES_DAYS))) s).
    cbn [of_product of_inventory]. split; [|now split].
    eapply low_stock_row_intro; try eassumption; try reflexivity.
    exists 5, 10. split; [assumption|]. split; [assumption | lia].
  - intros r Hr Hrp Hri a. subst a.
    split; [rewrite alerts_of_rows;
            exact (in_map (fun r => build_alert (select_columns r)) _ _ Hr)|].
    destruct (sales_of_row _ _ _ _ Hr) as [sr (Hsr & Hsub & Hsid & _)].
    rewrite Hri in Hsid.
    assert (Heq : sr = mkSales (inventory_id i) 3 (divide 3 RECENT_SALES_DAYS))
      by (apply (sales_subq_key _ _ _ _ _ Hrow Hsub); exact Hsid).
    unfold build_alert.
    cbn [select_columns row_current_stock row_threshold row_avg_daily_sales
         current_stock threshold days_until_stockout].
    rewrite Hrp, Hri, Hq, Ht, Hsr, Heq. cbn [option_map avg_daily_sales].
    change RECENT_SALES_DAYS with 30.
    split; [reflexivity|]. split; [reflexivity|]. split; [reflexivity|]. split.
    + intros Havg. unfold estimate_days.
      rewrite positive_is_truthy by (rewrite Havg; reflexivity).
      f_equal. transitivity (Qceiling (inject_Z 5 / (1 # 10))); [|reflexivity].
      apply Qceiling_comp. now rewrite Havg.
    + intros Havg. unfold estimate_days.
      now rewrite not_positive_is_falsy by (rewrite Havg; discriminate).
Qed.

(** The widget of the alert example, supplied by Acme, under the exact
    division: it is in the list, with 50 days of stock. *)
Lemma alert_inclusion_witness :
  exists a,
    In a (alerts (fst (low_stock_alerts
                         (depot (mkProduct 1 "Widget" "W-1" None (Some 10) (Some 1)) 5)
                         day_101 7)))
    /\ days_until_stockout a = Some 50.
Proof.
  set (p := mkProduct 1 "Widget" "W-1" None (Some 10) (Some 1)).
  destruct (alert_inclusion (depot p 5) day_101 7 p
              (mkInventory 1 1 1 (Some 5)) (mkWarehouse 1 7 "Main")
              (mkInventoryChange 1 1 (-3) "sale" (timedelta_days 100)))
    as [[_ Hlisted] Halert];
    try reflexivity; try (now left).
  - cbn. constructor; [intros [] | constructor].
  - destruct Hlisted as [r (Hr & Hrp & Hri)].
    + exists acme. split; [now left | reflexivity].
    + destruct (Halert r Hr Hrp Hri) as (Hin & _ & _ & _ & Hdays & _).
      exists (build_alert (select_columns r)). split; [exact Hin|].
      apply Hdays. reflexivity.
Defined.

(** C4 as stated fails: this product has five units in stock under a
    threshold of ten in the warehouse of the company, and one sale of three
    units in the window, and it is not in the alert list, because its
    supplier reference matches no supplier. *)
Lemma five_in_stock_three_sold_without_alert :
  let p := mkProduct 1 "Widget" "W-1" None (Some 10) None in
  let d := depot p 5 in
  products d = [p] /\ low_stock_thresh p = Some 10 /\
  inventory d = [mkInventory 1 1 1 (Some 5)] /\
  warehouse_ids d 7 = [1] /\
  map quantity_delta (window_sales d (day_101 - timedelta_days RECENT_SALES_DAYS) 1) = [-3] /\
  low_stock_alerts d day_101 7 = (mkAlerts [] 0, 200) /\
  (forall dialect : Dialect,
      low_stock_alerts (dialect := dialect) d day_101 7 = (mkAlerts [] 0, 200)).
Proof.
  cbv zeta. repeat split; reflexivity.
Qed.

(** ** Products without a threshold *)

(** Every row of the query has a stored threshold, which is the one the
    alert reports: the fallback of the loop is never taken. *)
Lemma alerted_threshold_is_stored {dialect : Dialect} d now company_id r :
  In r (low_stock_rows d now company_id) ->
  exists t, low_stock_thresh (of_product r) = Some t
            /\ threshold (build_alert (select_columns r)) = t.
Proof.
  intros Hr. apply in_low_stock_rows in Hr. destruct Hr as [_ Hw].
  unfold where_low_stock in Hw. rewrite !andb_true_iff in Hw.
  destruct Hw as [[_ Hlt] _]. apply sql_lt_true in Hlt.
  destruct Hlt as (q & t & _ & Ht & _). exists t. split; [assumption|].
  unfold build_alert. cbn. now rewrite Ht.
Qed.

(** C6, where the code departs from it.  A product whose threshold is not
    set, out of stock in a warehouse of the company, sold in the window and
    with a supplier on record, raises no alert, although it is below a
    threshold of 1; the same product with the threshold stored as 1 does.
    Neither depends on how the database divides; under the exact division
    the alert of the second product gives 0 days. *)
Theorem null_threshold_is_never_alerted :
  let unset := mkProduct 1 "Gadget" "G-1" None None (Some 1) in
  let one := mkProduct 1 "Gadget" "G-1" None (Some 1) (Some 1) in
  low_stock_alerts (depot unset 0) day_101 7 = (mkAlerts [] 0, 200) /\
  low_stock_alerts (depot one 0) day_101 7
  = (mkAlerts [mkAlert 1 "Gadget" "G-1" 1 "Main" 0 1 (Some 0)
                 (mkSupplierRecord 1 "Acme" "orders@acme.example")] 1, 200) /\
  (forall dialect : Dialect,
      low_stock_alerts (dialect := dialect) (depot unset 0) day_101 7
      = (mkAlerts [] 0, 200)) /\
  (forall dialect : Dialect,
      exists days,
        low_stock_alerts (dialect := dialect) (depot one 0) day_101 7
        = (mkAlerts [mkAlert 1 "Gadget" "G-1" 1 "Main" 0 1 days
                       (mkSupplierRecord 1 "Acme" "orders@acme.example")] 1, 200)).
Proof.
  cbv zeta. split; [reflexivity|]. split; [reflexivity|]. split.
  - intros dialect. reflexivity.
  - intros dialect. eexists. reflexivity.
Qed.

(** ** Products without a supplier *)

(** C10.  The supplier is joined, not outer-joined: a product whose
    supplier reference matches no supplier row has no row in the query,
    hence no alert, whatever its stock and its sales; and the supplier
    record of every alert is the id, the name and the contact email of a
    supplier row of the store. *)
Theorem alerts_need_supplier {dialect : Dialect} d now company_id :
  (forall p,
      (forall s, In s (suppliers d) -> supplier_ref p <> Some (supplier_id s)) ->
      forall r, In r (low_stock_rows d now company_id) -> of_product r <> p) /\
  alerts (fst (low_stock_alerts d now company_id))
  = map (fun r => build_alert (select_columns r)) (low_stock_rows d now company_id) /\
  (forall a,
      In a (alerts (fst (low_stock_alerts d now company_id))) ->
      exists s, In s (suppliers d)
                /\ supplier a
                   = mkSupplierRecord (supplier_id s) (supplier_name s) (contact_email s)).
Proof.
  split; [|split].
  - intros p Hnone r Hr Heq. apply in_low_stock_rows in Hr. destruct Hr as [Hj _].
    apply in_joins in Hj. destruct Hj as (_ & _ & _ & _ & _ & _ & Hs & Href).
    subst p. exact (Hnone _ Hs Href).
  - apply alerts_of_rows.
  - intros a Ha. rewrite alerts_of_rows in Ha. apply in_map_iff in Ha.
    destruct Ha as [r [<- Hr]]. apply in_low_stock_rows in Hr. destruct Hr as [Hj _].
    apply in_joins in Hj. destruct Hj as (_ & _ & _ & _ & _ & _ & Hs & _).
    exists (of_supplier r). split; [assumption | reflexivity].
Qed.

(** The gizmo has no supplier reference: understocked and sold as it is, no
    row of the query is about it. *)
Lemma alerts_need_supplier_witness :
  let p := mkProduct 1 "Gizmo" "Z-1" None (Some 10) None in
  (forall s, In s (suppliers (depot p 2)) -> supplier_ref p <> Some (supplier_id s)) /\
  (forall r, In r (low_stock_rows (depot p 2) day_101 7) -> of_product r <> p).
Proof.
  intros p.
  assert (Hnone : forall s, In s (suppliers (depot p 2))
                            -> supplier_ref p <> Some (supplier_id s))
    by (intros s _; discriminate).
  split; [exact Hnone|].
  exact (proj1 (alerts_need_supplier (depot p 2) day_101 7) p Hnone).
Defined.


(** * Further properties of [create_product] *)

(** ** Requests stopped before the store is touched *)

(** A body that is absent or empty ([null], [false], [0], an empty string,
    list or object) is read as the empty object: the answer names the first
    required field, and the store is not touched. *)
Lemma empty_body_lacks_name Decimal_str others request_json d :
  truthy request_json = false ->
  create_product Decimal_str others request_json (new_session d)
  = (Ok (Error "Missing required field: name", 400), new_session d).
Proof.
  intros H. unfold create_product, request_data. now rewrite H.
Qed.

(** The loop over the required fields never raises on a string or on a
    list. *)
Lemma first_missing_sequence data fields :
  (exists s, data = JStr s) \/ (exists l, data = JList l) ->
  exists o, first_missing data fields = Ok o.
Proof.
  intros Hd. induction fields as [|f fields [o IH]]; [now exists None|].
  cbn [first_missing].
  destruct Hd as [[s ->]|[l ->]]; cbn [py_in].
  - destruct (String.index 0 f s); [now exists o | now exists (Some f)].
  - destruct (existsb (is_str f) l); [now exists o | now exists (Some f)].
Qed.

(** A body that is not a JSON object is never taken for a product.  A
    string or an array is answered with status 400, as a request that lacks
    a field or whose price is invalid; any other value is answered as the
    empty body when it is falsy and makes the handler raise [TypeError]
    otherwise.  In no case is the store touched. *)
Theorem body_must_be_an_object Decimal_str others request_json d r s' :
  (forall entries, request_json <> JDict entries) ->
  create_product Decimal_str others request_json (new_session d) = (r, s') ->
  s' = new_session d /\
  ((exists msg, r = Ok (Error msg, 400)) \/ r = Raise (TypeError "argument is not iterable")) /\
  ((exists s, request_json = JStr s) \/ (exists l, request_json = JList l) ->
   exists msg, r = Ok (Error msg, 400)).
Proof.
  intros Hnot Hrun.
  destruct (truthy request_json) eqn:Htruth.
  2:{ rewrite (empty_body_lacks_name _ _ _ _ Htruth) in Hrun. inversion Hrun. subst.
      split; [reflexivity|]. split; [left|intros _]; eauto. }
  apply create_product_exit in Hrun. unfold request_data in Hrun. rewrite Htruth in Hrun.
  assert (Hprice : forall price, parse_price Decimal_str request_json <> Ok (Some price)).
  { intros price. unfold parse_price.
    destruct request_json; cbn; try discriminate. exfalso. now eapply Hnot. }
  assert (Hraise : forall e, first_missing request_json required_fields = Raise e ->
                             e = TypeError "argument is not iterable").
  { intros e. destruct request_json; cbn; try (intros He; inversion He; reflexivity).
    - intros He. destruct (first_missing_sequence (JStr s) required_fields) as [o Ho];
        [left; eauto|]. cbn in Ho. rewrite Ho in He. discriminate.
    - intros He. destruct (first_missing_sequence (JList items) required_fields) as [o Ho];
        [right; eauto|]. cbn in Ho. rewrite Ho in He. discriminate.
    - exfalso. now eapply Hnot. }
  inversion Hrun; subst;
    try match goal with Hp : parse_price _ _ = Ok (Some ?p) |- _ =>
          exfalso; exact (Hprice p Hp)
        end.
  - rewrite (Hraise _ H). split; [reflexivity|]. split; [now right|].
    intros Hseq. destruct (first_missing_sequence request_json required_fields Hseq) as [o Ho].
    rewrite Ho in H. discriminate.
  - split; [reflexivity|]. split; [left|intros _]; eauto.
  - exfalso. unfold parse_price in H0.
    destruct request_json; cbn in H0; try discriminate. now eapply Hnot.
  - split; [reflexivity|]. split; [left|intros _]; eauto.
Qed.

Lemma body_must_be_an_object_witness :
  (forall entries, JStr "name, sku, price, warehouse_quantities" <> JDict entries) /\
  snd (create_product Decimal_of_int alone (JStr "name, sku, price, warehouse_quantities")
         (new_session two_warehouses))
  = new_session two_warehouses.
Proof.
  assert (Hnot : forall entries,
             JStr "name, sku, price, warehouse_quantities" <> JDict entries)
    by (intros entries; discriminate).
  split; [exact Hnot|].
  exact (proj1 (body_must_be_an_object Decimal_of_int alone _ two_warehouses _ _ Hnot
                  (surjective_pairing _))).
Defined.

(** On an object, the loop stops at the first required field that is not a
    key. *)
Lemma first_missing_dict entries pre f post :
  (forall g, In g pre -> dict_get g entries <> None) ->
  dict_get f entries = None ->
  first_missing (JDict entries) (pre ++ f :: post) = Ok (Some f).
Proof.
  intros Hpre Hf. induction pre as [|g pre IH]; cbn [app first_missing py_in].
  - now rewrite Hf.
  - destruct (dict_get g entries) eqn:Hg.
    + apply IH. intros g' Hg'. apply Hpre. now right.
    + exfalso. apply (Hpre g); [now left | assumption].
Qed.

(** A request object that lacks required fields is answered with status 400
    and the name of the first of them, in the order name, sku, price,
    warehouse_quantities; the store is not touched.  An absent or empty
    body counts as the object without fields, and so lacks the name. *)
Theorem missing_field_is_named Decimal_str others request_json d entries pre f post :
  request_data request_json = JDict entries ->
  required_fields = pre ++ f :: post ->
  (forall g, In g pre -> dict_get g entries <> None) ->
  dict_get f entries = None ->
  create_product Decimal_str others request_json (new_session d)
  = (Ok (Error (String.append "Missing required field: " f), 400), new_session d).
Proof.
  intros Hdata Hfields Hpre Hf. unfold create_product. rewrite Hdata, Hfields.
  unfold bind, lift. now rewrite (first_missing_dict _ _ _ _ Hpre Hf).
Qed.

Lemma missing_field_is_named_witness :
  create_product Decimal_of_int alone
    (JDict [("warehouse_quantities", JList []); ("name", JStr "Widget")])
    (new_session two_warehouses)
  = (Ok (Error "Missing required field: sku", 400), new_session two_warehouses).
Proof.
  apply (missing_field_is_named Decimal_of_int alone _ two_warehouses
           [("warehouse_quantities", JList []); ("name", JStr "Widget")]
           ["name"] "sku" ["price"; "warehouse_quantities"]).
  - reflexivity.
  - reflexivity.
  - intros g [<-|[]]. discriminate.
  - reflexivity.
Defined.

(** ** The steps of the handler, one after the other *)

Lemma carries_fields data name sku price quantities :
  carries data name sku price quantities ->
  first_missing data required_fields = Ok None.
Proof.
  intros (Hn & Hs & Hp & Hq).
  destruct data; try discriminate. cbn in *.
  destruct (dict_get "name" entries); [|discriminate].
  destruct (dict_get "sku" entries); [|discriminate].
  destruct (dict_get "price" entries); [|discriminate].
  destruct (dict_get "warehouse_quantities" entries); [|discriminate].
  reflexivity.
Qed.

Lemma sku_taken_find k d :
  sku_taken k d = true <->
  exists p, find (fun p => String.eqb (product_sku p) k) (products d) = Some p.
Proof.
  unfold sku_taken. split.
  - intros H. apply existsb_exists in H. destruct H as [p [Hin Hp]].
    destruct (find _ (products d)) as [p'|] eqn:Hf; [now exists p'|].
    rewrite (find_none _ _ Hf p Hin) in Hp. discriminate.
  - intros [p Hf]. apply find_some in Hf. apply existsb_exists. now exists p.
Qed.

Lemma sku_free_find k d :
  sku_taken k d = false ->
  find (fun p => String.eqb (product_sku p) k) (products d) = None.
Proof.
  intros H. destruct (find _ (products d)) as [p|] eqn:Hf; [|reflexivity].
  assert (Ht : sku_taken k d = true) by (apply sku_taken_find; now exists p).
  congruence.
Qed.

(** A request that has its four fields, a price that converts and a string
    for SKU gets as far as the lookup, and goes on by what the lookup finds
    and by what its warehouse quantities are. *)
Lemma create_product_steps Decimal_str others request_json d name k pv price quantities :
  carries (request_data request_json) name (JStr k) pv quantities ->
  Decimal_str pv = Some price ->
  create_product Decimal_str others request_json (new_session d)
  = let looked_up := mkSession d None [] [Done SELECT_product] in
    match find (fun p => String.eqb (product_sku p) k) (products d) with
    | Some _ => (Ok (Error "SKU must be unique.", 409), looked_up)
    | None =>
        match quantities with
        | JList (w :: ws) =>
            if existsb entry_rejected (w :: ws)
            then (Ok (Error "Each warehouse entry must have warehouse_id and non-negative integer quantity.", 400),
                  looked_up)
            else transact (request_data request_json) price (w :: ws)
                   (mkSession (others d) None [] [Done SELECT_product])
        | _ => (Ok (Error "warehouse_quantities must be a non-empty list.", 400), looked_up)
        end
    end.
Proof.
  intros Hc Hprice. pose proof (carries_fields _ _ _ _ _ Hc) as Hmiss.
  destruct Hc as (Hn & Hs & Hp & Hq).
  unfold create_product. generalize dependent (request_data request_json). intros data.
  intros Hn Hs Hp Hq Hmiss.
  unfold bind at 1. unfold lift at 1. rewrite Hmiss.
  unfold bind at 1. unfold lift at 1. unfold parse_price. rewrite Hp, Hprice.
  unfold bind at 1. unfold lift at 1. rewrite Hs.
  unfold bind at 1. unfold first_product_by_sku. cbn [bind_text].
  unfold bind at 1. unfold record at 1.
  cbn [new_session view transaction committed pending trace app]. cbv zeta.
  destruct (find _ (products d)); [reflexivity|].
  unfold bind at 1. unfold lift at 1. rewrite Hq.
  destruct quantities as [ | | | | | [|w ws] | ]; try reflexivity.
  destruct (existsb entry_rejected (w :: ws)); reflexivity.
Qed.

(** The [try] block, statement by statement, on a session with nothing
    pending. *)
Lemma write_product_steps data price wqs s :
  pending s = [] ->
  write_product data price wqs s
  = match py_getitem data "name" with
    | Raise e => (Raise e, s)
    | Ok name =>
        match py_getitem data "sku" with
        | Raise e => (Raise e, s)
        | Ok sku =>
            match insert_object (NewProduct name sku price) (view s) with
            | Raise e =>
                (Raise e,
                 mkSession (committed s) (transaction s) [NewProduct name sku price]
                   (trace s ++ [Refused INSERT_product e]))
            | Ok (w, pid) =>
                let inserted :=
                  mkSession (committed s) (Some w) [] (trace s ++ [Done INSERT_product]) in
                match inventory_entries pid wqs with
                | Raise e => (Raise e, inserted)
                | Ok os =>
                    match flush_objects os
                            (mkSession (committed s) (Some w) os
                               (trace s ++ [Done INSERT_product])) with
                    | (Ok _, s1) =>
                        (Ok pid, mkSession (view s1) None [] (trace s1 ++ [Done COMMIT]))
                    | (Raise e, s1) => (Raise e, s1)
                    end
                end
            end
        end
    end.
Proof.
  intros Hpend. unfold write_product.
  unfold bind at 1. unfold lift at 1.
  destruct (py_getitem data "name") as [name|e]; [|reflexivity].
  unfold bind at 1. unfold lift at 1.
  destruct (py_getitem data "sku") as [sku|e]; [|reflexivity].
  unfold bind at 1. unfold add at 1.
  unfold bind at 1. unfold flush at 1.
  cbn [pending committed transaction trace]. rewrite Hpend.
  cbn [app flush_objects]. unfold view at 1.
  cbn [pending committed transaction trace statement_of].
  change (match transaction s with Some w => w | None => committed s end) with (view s).
  destruct (insert_object (NewProduct name sku price) (view s)) as [[w pid]|e];
    [|reflexivity].
  unfold commit, flush, add_all. unfold bind, ret, lift. cbn [hd]. cbv zeta.
  destruct (inventory_entries pid wqs) as [os|e]; [|reflexivity].
  cbn [pending committed transaction trace app].
  destruct (flush_objects os _) as [[keys|e] s1]; reflexivity.
Qed.

Lemma extends_refl d : extends d d.
Proof.
  repeat split; try reflexivity; exists []; now rewrite app_nil_r.
Qed.

Lemma extends_trans d1 d2 d3 : extends d1 d2 -> extends d2 d3 -> extends d1 d3.
Proof.
  intros (Hw & Hs & Hc & [ps Hp] & [rows Hi]) (Hw' & Hs' & Hc' & [ps' Hp'] & [rows' Hi']).
  repeat split; try congruence.
  - exists (ps ++ ps'). now rewrite Hp', Hp, app_assoc.
  - exists (rows ++ rows'). now rewrite Hi', Hi, app_assoc.
Qed.

Lemma insert_object_extends o w w' key :
  insert_object o w = Ok (w', key) -> extends w w'.
Proof.
  destruct o as [name sku price|pid wid q]; cbn [insert_object].
  - destruct (bind_text name); [|discriminate]. destruct (bind_text sku); [|discriminate].
    destruct (sku_taken _ w); [discriminate|]. intros H. inversion H. subst.
    repeat split; try reflexivity; cbn; [eauto | exists []; now rewrite app_nil_r].
  - destruct (bind_integer wid); [|discriminate]. destruct (bind_integer q); [|discriminate].
    destruct (_ || _); [discriminate|]. destruct (stocked _ _ w); [discriminate|].
    intros H. inversion H. subst.
    repeat split; try reflexivity; cbn; [exists []; now rewrite app_nil_r | eauto].
Qed.

(** Whatever a flush ends in, the working copy has only grown, and every
    statement it has sent is the INSERT of one of the objects. *)
Lemma flush_objects_extends os :
  forall s r s',
    flush_objects os s = (r, s') ->
    extends (view s) (view s') /\
    exists t, trace s' = trace s ++ t /\
      forall ev, In ev t ->
        exists o, In o os
                  /\ (ev = Done (statement_of o) \/ exists e, ev = Refused (statement_of o) e).
Proof.
  induction os as [|o rest IH]; intros s r s' H.
  - cbn in H. inversion H. subst. split; [apply extends_refl|].
    exists []. rewrite app_nil_r. split; [reflexivity|]. intros ev [].
  - cbn [flush_objects] in H.
    destruct (insert_object o (view s)) as [[w key]|e] eqn:Hins.
    + apply insert_object_extends in Hins. unfold bind in H.
      destruct (flush_objects rest _) as [r1 s1] eqn:Hrest.
      apply IH in Hrest. unfold view at 1 in Hrest. cbn [transaction trace] in Hrest.
      destruct Hrest as [Hext [t [Ht Hev]]].
      assert (Hs : s' = s1) by (destruct r1; inversion H; reflexivity). subst s1.
      split; [eapply extends_trans; eassumption|].
      exists (Done (statement_of o) :: t). rewrite Ht, <- app_assoc.
      split; [reflexivity|].
      intros ev [<-|Hin].
      * exists o. split; [now left | now left].
      * destruct (Hev ev Hin) as [o' [Ho' Hk]]. exists o'. split; [now right | assumption].
    + inversion H. subst. unfold view. cbn [transaction committed trace].
      split; [apply extends_refl|].
      exists [Refused (statement_of o) e]. split; [reflexivity|].
      intros ev [<-|[]]. exists o. split; [now left | right; now exists e].
Qed.

Lemma inventory_entries_statements pid :
  forall wqs os,
    inventory_entries pid wqs = Ok os ->
    map statement_of os = map (fun _ => INSERT_inventory) wqs.
Proof.
  induction wqs as [|wq rest IH]; intros os H; cbn [inventory_entries] in H.
  - inversion H. reflexivity.
  - destruct (inventory_entry pid wq) as [o|] eqn:Ho; [|discriminate].
    destruct (inventory_entries pid rest) as [os'|]; [|discriminate].
    inversion H. subst. apply inventory_entry_ok in Ho.
    destruct Ho as [wid [q [-> _]]]. cbn [map statement_of]. f_equal. now apply IH.
Qed.

(** What a [try] block that ends well has done: it has inserted the product
    under a SKU that the store did not have, with a fresh key and neither a
    threshold nor a supplier, has flushed one inventory object per entry,
    and has committed. *)
Lemma write_product_ok data price wqs s pid s' :
  pending s = [] ->
  write_product data price wqs s = (Ok pid, s') ->
  exists n k os keys s1,
    py_getitem data "name" = Ok (JStr n) /\
    py_getitem data "sku" = Ok (JStr k) /\
    sku_taken k (view s) = false /\
    pid = next_id product_id (products (view s)) /\
    inventory_entries pid wqs = Ok os /\
    flush_objects os
      (mkSession (committed s)
         (Some (with_products (view s)
                  (products (view s) ++ [mkProduct pid n k (Some price) None None])))
         os (trace s ++ [Done INSERT_product]))
    = (Ok keys, s1) /\
    s' = mkSession (view s1) None [] (trace s1 ++ [Done COMMIT]).
Proof.
  intros Hpend H. rewrite (write_product_steps _ _ _ _ Hpend) in H.
  destruct (py_getitem data "name") as [name|]; [|discriminate].
  destruct (py_getitem data "sku") as [sku|]; [|discriminate].
  destruct (insert_object (NewProduct name sku price) (view s)) as [[w pid']|] eqn:Hins;
    [|discriminate].
  cbv zeta in H.
  destruct (inventory_entries pid' wqs) as [os|] eqn:Hos; [|discriminate].
  destruct (flush_objects os _) as [[keys|] s1] eqn:Hfl; [|discriminate].
  inversion H. subst pid' s'. clear H.
  cbn [insert_object] in Hins.
  destruct name; try discriminate. destruct sku; try discriminate.
  cbn [bind_text] in Hins.
  destruct (sku_taken s2 (view s)) eqn:Hfree; [discriminate|].
  inversion Hins. subst w pid. clear Hins.
  exists s0, s2, os, keys, s1. repeat split; try reflexivity; assumption.
Qed.

(** ** The lookup of the SKU *)

(** A request whose SKU the store already has is answered with the conflict
    of status 409 as soon as it has its four fields and a valid price,
    whatever its warehouse quantities are; only the lookup is sent and the
    store is left as it was. *)
Theorem stored_sku_is_a_conflict
    Decimal_str others request_json d name k pv price quantities :
  carries (request_data request_json) name (JStr k) pv quantities ->
  Decimal_str pv = Some price ->
  sku_taken k d = true ->
  create_product Decimal_str others request_json (new_session d)
  = (Ok (Error "SKU must be unique.", 409), mkSession d None [] [Done SELECT_product]).
Proof.
  intros Hc Hprice Htaken.
  rewrite (create_product_steps _ _ _ _ _ _ _ _ _ Hc Hprice). cbv zeta.
  apply sku_taken_find in Htaken. destruct Htaken as [p ->]. reflexivity.
Qed.

Lemma stored_sku_is_a_conflict_witness :
  sku_taken "W-1" (racing_widget two_warehouses) = true /\
  create_product Decimal_of_int alone (widget (JStr "none"))
    (new_session (racing_widget two_warehouses))
  = (Ok (Error "SKU must be unique.", 409),
     mkSession (racing_widget two_warehouses) None [] [Done SELECT_product]).
Proof.
  split; [reflexivity|].
  apply (stored_sku_is_a_conflict Decimal_of_int alone (widget (JStr "none"))
           (racing_widget two_warehouses) (JStr "Widget") "W-1" (JInt 10)
           (Dfinite false 10 0) (JStr "none")).
  - repeat split.
  - reflexivity.
  - reflexivity.
Defined.

(** ** All or nothing *)

Lemma stocks_product pid rows wqs :
  Forall2 (stocks pid) rows wqs -> Forall (fun row => inv_product_id row = pid) rows.
Proof.
  induction 1 as [|row wq rows' wqs' [Hrow _] _ IH]; constructor; assumption.
Qed.

(** A run of the handler either answers 201, and has then added to the
    store one product row under the returned key and at least one inventory
    row, all of them for that product, and nothing else; or it gives any
    other answer, or raises, and has then added nothing at all: the store
    is as it was, or as the other requests have made it.  No observer finds
    a product of the handler without inventory, or inventory without its
    product. *)
Theorem all_or_nothing Decimal_str others request_json d r s' :
  create_product Decimal_str others request_json (new_session d) = (r, s') ->
  ((forall msg pid code, r <> Ok (Created msg pid, code)) /\
   (committed s' = d \/ committed s' = others d))
  \/
  (exists pid p rows,
      r = Ok (Created "Product created" pid, 201) /\
      warehouses (committed s') = warehouses (others d) /\
      suppliers (committed s') = suppliers (others d) /\
      inventory_changes (committed s') = inventory_changes (others d) /\
      products (committed s') = products (others d) ++ [p] /\
      product_id p = pid /\
      inventory (committed s') = inventory (others d) ++ rows /\
      rows <> [] /\
      Forall (fun row => inv_product_id row = pid) rows).
Proof.
  intros Hrun. apply create_product_exit in Hrun.
  inversion Hrun; subst; cbn [new_session committed];
    try (left; split; [intros; discriminate | now left]).
  name_transact Htx. apply transact_run in Htx; [|reflexivity].
  destruct Htx as [(pid & s0 & -> & Hw & ->)|[e [s1 [Hw [-> ->]]]]].
  - right. apply write_product_ok in Hw; [|reflexivity].
    destruct Hw as (n & k' & os & keys & s1 & _ & _ & _ & Hpid & Hos & Hfl & ->).
    cbn [view transaction committed trace] in Hfl.
    pose proof (flush_objects_extends _ _ _ _ Hfl) as [(Hwh & Hsu & Hch & _ & _) _].
    pose proof (flush_inventory _ _ _ _ _ _ Hos Hfl) as [Hp [rows (Hi & Hrows & _)]].
    unfold view at 2 in Hwh. unfold view at 2 in Hsu. unfold view at 2 in Hch.
    unfold view at 2 in Hp. unfold view at 2 in Hi.
    cbn [transaction with_products warehouses suppliers inventory_changes products inventory]
      in Hwh, Hsu, Hch, Hp, Hi.
    exists pid, (mkProduct pid n k' (Some price) None None), rows.
    cbn [committed]. repeat split; try assumption; try reflexivity.
    + intros ->. inversion Hrows. subst. congruence.
    + exact (stocks_product _ _ _ Hrows).
  - left. apply write_product_run in Hw; [|reflexivity].
    destruct Hw as [Hc _]. cbn [committed] in *.
    split; [|now right]. intros msg pid code. destruct e; discriminate.
Qed.

Lemma all_or_nothing_witness :
  let run := create_product Decimal_of_int alone
               (widget (JList [entry (JInt 1) (JInt 5); entry (JInt 1) (JInt 7)]))
               (new_session two_warehouses) in
  fst run = Ok (Error integrity_message, 400) /\ committed (snd run) = two_warehouses.
Proof.
  intros run.
  destruct (all_or_nothing Decimal_of_int alone
              (widget (JList [entry (JInt 1) (JInt 5); entry (JInt 1) (JInt 7)]))
              two_warehouses (fst run) (snd run) (surjective_pairing _))
    as [[_ [Hc|Hc]]|(pid & p & rows & Hr & _)].
  - split; [reflexivity | exact Hc].
  - split; [reflexivity | exact Hc].
  - vm_compute in Hr. discriminate.
Defined.

(** ** The quantities that reach the store *)

Lemma accepted_quantity wq q :
  entry_rejected wq = false ->
  py_getitem wq "quantity" = Ok q ->
  exists m, int_value q = Some m /\ 0 <= m.
Proof.
  unfold entry_rejected. destruct wq; try discriminate. cbn [py_getitem].
  destruct (dict_get "warehouse_id" entries); [|discriminate].
  destruct (dict_get "quantity" entries) as [q'|]; [|discriminate].
  intros Hrej Hq. inversion Hq. subst q'.
  apply orb_false_elim in Hrej. destruct Hrej as [Hint Hneg].
  destruct (int_value q) as [m|] eqn:Hm.
  - exists m. split; [reflexivity|]. apply Z.ltb_ge in Hneg. lia.
  - destruct q; discriminate.
Qed.

Lemma stocks_quantities pid rows wqs :
  Forall2 (stocks pid) rows wqs ->
  existsb entry_rejected wqs = false ->
  Forall (fun row => exists q, quantity row = Some q /\ 0 <= q) rows.
Proof.
  induction 1 as [|row wq rows' wqs' (_ & _ & [q [Hq Hv]]) _ IH]; intros Hacc.
  - constructor.
  - cbn [existsb] in Hacc. apply orb_false_elim in Hacc. destruct Hacc as [Hwq Hrest].
    constructor.
    + destruct (accepted_quantity _ _ Hwq Hq) as [m [Hm Hpos]].
      exists m. split; [congruence | assumption].
    + now apply IH.
Qed.

(** Every inventory row the handler creates holds a quantity, and that
    quantity is not negative: the check on the entries keeps negative stock
    out of the store, booleans counting as 0 and 1. *)
Theorem created_stock_is_not_negative Decimal_str others request_json d msg pid code s' :
  create_product Decimal_str others request_json (new_session d)
  = (Ok (Created msg pid, code), s') ->
  exists rows,
    inventory (committed s') = inventory (others d) ++ rows /\
    Forall (fun row => exists q, quantity row = Some q /\ 0 <= q) rows.
Proof.
  intros Hrun. apply create_product_exit in Hrun.
  inversion Hrun; subst.
  name_transact Htx. apply transact_run in Htx; [|reflexivity].
  destruct Htx as [(pid' & s0 & Hr & Hw & ->)|[e [s1 [_ [_ Hr]]]]];
    [|destruct e; discriminate].
  apply write_product_run in Hw; [|reflexivity].
  destruct Hw as (_ & _ & _ & [rows (Hi & Hrows & _)] & _).
  unfold view in Hi. cbn [transaction committed] in Hi |- *.
  exists rows. split; [assumption|].
  eapply stocks_quantities; eassumption.
Qed.

Lemma created_stock_is_not_negative_witness :
  exists rows,
    inventory (committed (snd (create_product Decimal_of_int alone
        (widget (JList [entry (JInt 1) (JBool true); entry (JInt 2) (JInt 0)]))
        (new_session two_warehouses)))) = rows /\
    Forall (fun row => exists q, quantity row = Some q /\ 0 <= q) rows.
Proof.
  destruct (created_stock_is_not_negative Decimal_of_int alone
              (widget (JList [entry (JInt 1) (JBool true); entry (JInt 2) (JInt 0)]))
              two_warehouses "Product created" 1 201
              (snd (create_product Decimal_of_int alone
                      (widget (JList [entry (JInt 1) (JBool true); entry (JInt 2) (JInt 0)]))
                      (new_session two_warehouses))))
    as [rows [Hi Hrows]].
  - vm_compute. reflexivity.
  - exists rows. split; [exact Hi | exact Hrows].
Defined.

(** ** What a created product is *)

(** Everything a run that answers 201 has done. *)
Lemma created_outcome Decimal_str others request_json d msg pid code s' :
  create_product Decimal_str others request_json (new_session d)
  = (Ok (Created msg pid, code), s') ->
  exists n k price wqs rows,
    msg = "Product created" /\ code = 201 /\
    py_getitem (request_data request_json) "name" = Ok (JStr n) /\
    py_getitem (request_data request_json) "sku" = Ok (JStr k) /\
    py_getitem (request_data request_json) "warehouse_quantities" = Ok (JList wqs) /\
    wqs <> [] /\ existsb entry_rejected wqs = false /\
    sku_taken k d = false /\ sku_taken k (others d) = false /\
    pid = next_id product_id (products (others d)) /\
    extends (others d) (committed s') /\
    products (committed s')
    = products (others d) ++ [mkProduct pid n k (Some price) None None] /\
    inventory (committed s') = inventory (others d) ++ rows /\
    Forall2 (stocks pid) rows wqs /\
    Forall (fun row => warehouse_exists (inv_warehouse_id row) (others d) = true) rows /\
    transaction s' = None /\ pending s' = [] /\
    trace s'
    = Done SELECT_product :: Done INSERT_product
      :: map (fun _ => Done INSERT_inventory) wqs
         ++ [Done COMMIT; Done SELECT_product_by_id].
Proof.
  intros Hrun. apply create_product_exit in Hrun.
  inversion Hrun; subst.
  name_transact Htx. apply transact_run in Htx; [|reflexivity].
  destruct Htx as [(pid' & s0 & Hr & Hw & ->)|[e [s1 [_ [_ Hr]]]]];
    [|destruct e; discriminate].
  inversion Hr. subst msg pid' code. clear Hr.
  apply write_product_ok in Hw; [|reflexivity].
  destruct Hw as (n & k' & os & keys & s1 & Hn & Hk & Hfree & Hpid & Hos & Hfl & ->).
  cbn [view transaction committed trace] in Hfl, Hfree, Hpid.
  pose proof (flush_objects_extends _ _ _ _ Hfl) as [Hext _].
  pose proof (flush_objects_run _ _ _ _ Hfl) as [_ [t [Ht Hdone]]].
  pose proof (flush_inventory _ _ _ _ _ _ Hos Hfl) as [Hp [rows (Hi & Hrows & Hknown)]].
  unfold view at 1 in Hext. unfold view at 2 in Hp. unfold view at 2 in Hi.
  unfold view at 1 in Hknown.
  cbn [transaction with_products products inventory trace] in Hext, Hp, Hi, Hknown, Ht.
  match goal with Hs : py_getitem _ "sku" = Ok ?v, Hb : bind_text ?v = Some _ |- _ =>
    rewrite Hs in Hk; inversion Hk; subst v; cbn in Hb; inversion Hb; subst
  end.
  assert (Hext' : extends (others d) (view s1)).
  { eapply extends_trans; [|exact Hext].
    repeat split; try reflexivity; cbn; [eauto | exists []; now rewrite app_nil_r]. }
  destruct Hext' as (Hw1 & Hs1 & Hc1 & Hps & Hrs).
  exists n. eexists. exists price, wqs, rows. cbn [committed transaction pending trace].
  repeat split; try eassumption; try reflexivity.
  - match goal with |- sku_taken ?x d = false => destruct (sku_taken x d) eqn:Ht' end;
      [|reflexivity].
    apply sku_taken_find in Ht'. destruct Ht' as [p Hp']. congruence.
  - rewrite Ht. cbn [app]. rewrite <- (map_map statement_of Done).
    rewrite (inventory_entries_statements _ _ _ Hos), map_map.
    now rewrite <- !app_assoc.
Qed.

(** A run that does not answer 201 has left the store as it was, or as the
    other requests have made it. *)
Lemma failed_outcome Decimal_str others request_json d r s' :
  create_product Decimal_str others request_json (new_session d) = (r, s') ->
  (forall msg pid code, r <> Ok (Created msg pid, code)) ->
  (committed s' = d \/ committed s' = others d) /\
  transaction s' = None /\ pending s' = [] /\
  ~ In (Done COMMIT) (trace s').
Proof.
  intros Hrun Hnot. apply create_product_exit in Hrun.
  inversion Hrun; subst; cbn [new_session committed transaction pending trace];
    try (repeat split; try (now left);
         intros Hin; cbn in Hin; intuition discriminate).
  name_transact Htx. apply transact_run in Htx; [|reflexivity].
  destruct Htx as [(pid & s0 & -> & _)|[e [s1 [Hw [-> _]]]]];
    [exfalso; eapply Hnot; reflexivity|].
  cbn [committed transaction pending trace].
  rewrite write_product_steps in Hw by reflexivity.
  cbn [view transaction committed trace] in Hw.
  assert (Hrest : committed s1 = others d /\ ~ In (Done COMMIT) (trace s1)).
  { destruct (py_getitem _ "name") as [name|]; [|inversion Hw; subst; cbn; intuition discriminate].
    destruct (py_getitem _ "sku") as [sku'|]; [|inversion Hw; subst; cbn; intuition discriminate].
    destruct (insert_object _ (others d)) as [[w pid]|];
      [|inversion Hw; subst; cbn; intuition discriminate].
    cbv zeta in Hw.
    destruct (inventory_entries pid wqs) as [os|] eqn:Hos;
      [|inversion Hw; subst; cbn; intuition discriminate].
    destruct (flush_objects os _) as [[keys|e'] s2] eqn:Hfl; [discriminate|].
    inversion Hw. subst e' s2. clear Hw.
    pose proof (flush_objects_run _ _ _ _ Hfl) as [Hc _].
    pose proof (flush_objects_extends _ _ _ _ Hfl) as [_ [t [Ht Hev]]].
    cbn [committed trace] in Hc, Ht. split; [assumption|].
    rewrite Ht. intros Hin. apply in_app_or in Hin. destruct Hin as [Hin|Hin].
    - cbn in Hin. intuition discriminate.
    - destruct (Hev _ Hin) as [o [_ [Hd|[e' Hd]]]]; [|discriminate].
      destruct o; discriminate. }
  destruct Hrest as [Hc Hno]. repeat split; try (now right).
  intros Hin. apply in_app_or in Hin. destruct Hin as [Hin|[Hin|[]]];
    [contradiction | discriminate].
Qed.

(** ** One commit *)

(** The handler commits at most once, and exactly when it answers 201.  In
    such a run every statement sent before the commit has been carried out,
    and nothing is written after it: the commit is followed by the read of
    the key of the product for the response, and by nothing else.  The trace
    of any other run has no commit at all. *)
Theorem commit_iff_created Decimal_str others request_json d r s' :
  create_product Decimal_str others request_json (new_session d) = (r, s') ->
  ((exists pid, r = Ok (Created "Product created" pid, 201))
   <-> In (Done COMMIT) (trace s')) /\
  (In (Done COMMIT) (trace s') ->
   exists before,
     trace s' = before ++ [Done COMMIT; Done SELECT_product_by_id] /\
     In (Done INSERT_product) before /\
     forall ev, In ev before ->
                exists st, ev = Done st /\ st <> COMMIT /\ st <> ROLLBACK).
Proof.
  intros Hrun.
  assert (Hcases : (exists msg pid code, r = Ok (Created msg pid, code))
                   \/ (forall msg pid code, r <> Ok (Created msg pid, code))).
  { destruct r as [[[m|m pid] code]|e]; try (right; intros; discriminate).
    left. now exists m, pid, code. }
  destruct Hcases as [(msg & pid & code & ->)|Hnot].
  - destruct (created_outcome _ _ _ _ _ _ _ _ Hrun)
      as (n & k & price & wqs & rows & -> & -> & _ & _ & Hq & _ & _ & _ & _ & _ & _ & _
          & _ & _ & _ & _ & _ & Ht).
    assert (Hin : In (Done COMMIT) (trace s')).
    { rewrite Ht. right. right. apply in_or_app. right. now left. }
    split; [split; [intros _; exact Hin | intros _; now exists pid]|].
    intros _.
    exists (Done SELECT_product :: Done INSERT_product
            :: map (fun _ => Done INSERT_inventory) wqs).
    split; [exact Ht|]. split; [right; now left|].
    intros ev [<-|[<-|Hev]].
    + exists SELECT_product. repeat split; discriminate.
    + exists INSERT_product. repeat split; discriminate.
    + apply in_map_iff in Hev. destruct Hev as [wq [<- _]].
      exists INSERT_inventory. repeat split; discriminate.
  - destruct (failed_outcome _ _ _ _ _ _ Hrun Hnot) as (_ & _ & _ & Hno).
    split; [split|]; try (intros Hin; contradiction).
    intros [pid ->]. exfalso. eapply Hnot. reflexivity.
Qed.

Lemma commit_iff_created_witness :
  let run := create_product Decimal_of_int alone
               (widget (JList [entry (JInt 1) (JInt 5); entry (JInt 2) (JInt 7)]))
               (new_session two_warehouses) in
  In (Done COMMIT) (trace (snd run)) /\
  exists before,
    trace (snd run) = before ++ [Done COMMIT; Done SELECT_product_by_id] /\
    In (Done INSERT_product) before.
Proof.
  intros run.
  assert (Hin : In (Done COMMIT) (trace (snd run))) by (vm_compute; tauto).
  split; [exact Hin|].
  destruct (proj2 (commit_iff_created Decimal_of_int alone
                     (widget (JList [entry (JInt 1) (JInt 5); entry (JInt 2) (JInt 7)]))
                     two_warehouses (fst run) (snd run) (surjective_pairing _)) Hin)
    as [before (Ht & Hp & _)].
  exists before. split; [exact Ht | exact Hp].
Defined.

(** ** Errors that are not integrity errors *)

(** When the store or its driver refuses an insert with an error that is
    not an integrity error, the handler rolls back and answers with status
    500 and the text of the error as its message.  An error of the lookup of
    the SKU is not caught: it leaves the handler as an exception, with no
    rollback sent. *)
Theorem other_errors_are_500 Decimal_str others request_json d r s' :
  create_product Decimal_str others request_json (new_session d) = (r, s') ->
  (forall st e,
      In (Refused st e) (trace s') -> st <> SELECT_product ->
      (forall v, e <> IntegrityError v) ->
      r = Ok (Error (str_exn e), 500) /\ committed s' = others d /\
      exists t, trace s' = t ++ [Done ROLLBACK]) /\
  (forall e,
      In (Refused SELECT_product e) (trace s') ->
      r = Raise e /\ trace s' = [Refused SELECT_product e] /\ committed s' = d).
Proof.
  intros Hrun. apply create_product_exit in Hrun. split.
  - intros st e Hin Hst Hother.
    inversion Hrun; subst; cbn [trace new_session] in Hin;
      try (cbn in Hin; contradiction);
      try (destruct Hin as [Hin|[]]; inversion Hin; congruence).
    name_transact Htx.
    eapply transact_failed in Htx; [|now exists st; exact Hin].
    destruct Htx as (Hc & _ & _ & Hlast & ->).
    repeat split; try assumption.
    destruct e; try reflexivity. exfalso. now eapply Hother.
  - intros e Hin.
    inversion Hrun; subst; cbn [trace new_session] in Hin;
      try (cbn in Hin; contradiction);
      try (destruct Hin as [Hin|[]]; inversion Hin; subst; now repeat split);
      try (destruct Hin as [Hin|[]]; discriminate).
    exfalso. name_transact Htx. apply transact_run in Htx; [|reflexivity].
    destruct Htx as [(pid & s0 & _ & Hw & ->)|[e0 [s1 [Hw [-> _]]]]];
      apply write_product_run in Hw; try reflexivity.
    + destruct Hw as (_ & _ & _ & _ & t & Ht). cbn [trace] in Hin.
      rewrite Ht in Hin. cbn [trace app] in Hin.
      destruct Hin as [Hin|Hin]; [discriminate|].
      apply in_app_or in Hin. destruct Hin as [Hin|[Hin|[]]]; [|discriminate].
      apply in_app_or in Hin. destruct Hin as [Hin|[Hin|[]]]; [|discriminate].
      exact (not_in_done Hin).
    + destruct Hw as [_ [t [Ht Hre]]]. cbn [trace] in Hin, Ht. rewrite Ht in Hin.
      apply in_app_or in Hin. destruct Hin as [Hin|[Hin|[]]]; [|discriminate].
      cbn [app] in Hin. destruct Hin as [Hin|Hin]; [discriminate|].
      apply Hre in Hin. destruct Hin as [_ Hne]. now apply Hne.
Qed.

(** A quantity of 2^63 units: no integer column holds it, the insert of the
    inventory row is refused with an error that is not an integrity error,
    and the answer has status 500. *)
Lemma other_errors_are_500_witness :
  let run := create_product Decimal_of_int alone
               (widget (JList [entry (JInt 1) (JInt (2 ^ 63))]))
               (new_session two_warehouses) in
  In (Refused INSERT_inventory (DBAPIError "integer out of range")) (trace (snd run)) /\
  fst run = Ok (Error "integer out of range", 500) /\
  committed (snd run) = two_warehouses.
Proof.
  intros run.
  assert (Hin : In (Refused INSERT_inventory (DBAPIError "integer out of range"))
                  (trace (snd run))) by (vm_compute; tauto).
  split; [exact Hin|].
  destruct (proj1 (other_errors_are_500 Decimal_of_int alone
                     (widget (JList [entry (JInt 1) (JInt (2 ^ 63))]))
                     two_warehouses (fst run) (snd run) (surjective_pairing _))
              INSERT_inventory (DBAPIError "integer out of range") Hin)
    as (Hr & Hc & _).
  - discriminate.
  - intros v. discriminate.
  - split; [exact Hr | exact Hc].
Defined.

(** ** Requests that pass every check *)

Lemma next_id_above {A} (key : A -> Z) rows x :
  In x rows -> key x < next_id key rows.
Proof.
  unfold next_id. induction rows as [|a rows IH]; intros Hin; [contradiction|].
  cbn [map fold_right]. destruct Hin as [->|Hin]; [lia|].
  specialize (IH Hin). lia.
Qed.





(** ** Requests one after the other *)

Lemma sku_taken_in k d : sku_taken k d = true <-> In k (map product_sku (products d)).
Proof.
  unfold sku_taken. rewrite existsb_exists, in_map_iff. split.
  - intros [p [Hin Heq]]. apply String.eqb_eq in Heq. now exists p.
  - intros [p [Heq Hin]]. exists p. split; [assumption | now apply String.eqb_eq].
Qed.

(** Once a product has been created under a SKU, every later request for
    that SKU that has its four fields and a valid price is answered with
    the conflict of status 409 and changes nothing, for as long as the
    product stays in the store. *)
Theorem second_request_is_a_conflict
    Decimal_str others request_json d msg pid code s1
    others' request_json' d' name sku pv price quantities :
  create_product Decimal_str others request_json (new_session d)
  = (Ok (Created msg pid, code), s1) ->
  (forall p, In p (products (committed s1)) -> In p (products d')) ->
  py_getitem (request_data request_json) "sku" = Ok sku ->
  carries (request_data request_json') name sku pv quantities ->
  Decimal_str pv = Some price ->
  create_product Decimal_str others' request_json' (new_session d')
  = (Ok (Error "SKU must be unique.", 409), mkSession d' None [] [Done SELECT_product]).
Proof.
  intros Hrun Hstays Hsku Hc Hprice.
  destruct (created_outcome _ _ _ _ _ _ _ _ Hrun)
    as (n & k & price0 & wqs & rows & _ & _ & _ & Hk & _ & _ & _ & _ & _ & _ & _ & Hp & _).
  rewrite Hk in Hsku. inversion Hsku. subst sku.
  rewrite (create_product_steps _ _ _ _ _ _ _ _ _ Hc Hprice). cbv zeta.
  assert (Htaken : sku_taken k d' = true).
  { apply sku_taken_in. apply in_map_iff.
    exists (mkProduct pid n k (Some price0) None None). split; [reflexivity|].
    apply Hstays. rewrite Hp. apply in_or_app. right. now left. }
  apply sku_taken_find in Htaken. destruct Htaken as [p ->]. reflexivity.
Qed.

Lemma second_request_is_a_conflict_witness :
  let request := widget (JList [entry (JInt 1) (JInt 5)]) in
  let once := snd (create_product Decimal_of_int alone request (new_session two_warehouses)) in
  create_product Decimal_of_int alone request (new_session (committed once))
  = (Ok (Error "SKU must be unique.", 409),
     mkSession (committed once) None [] [Done SELECT_product]).
Proof.
  intros request once.
  apply (second_request_is_a_conflict Decimal_of_int alone request two_warehouses
           "Product created" 1 201 once alone request (committed once)
           (JStr "Widget") (JStr "W-1") (JInt 10) (Dfinite false 10 0)
           (JList [entry (JInt 1) (JInt 5)])).
  - vm_compute. reflexivity.
  - intros p Hp. exact Hp.
  - reflexivity.
  - repeat split.
  - reflexivity.
Defined.

(** ** What the handler keeps true of the store *)

(** On a store whose SKUs and product keys are pairwise different and whose
    inventory rows refer to stored products and warehouses, and as long as
    the other requests keep it so, every run of the handler leaves a store
    of which the same is true. *)
Theorem store_invariants_are_kept Decimal_str others request_json d r s' :
  create_product Decimal_str others request_json (new_session d) = (r, s') ->
  unique_skus d -> unique_product_ids d -> references_hold d ->
  unique_skus (others d) -> unique_product_ids (others d) -> references_hold (others d) ->
  unique_skus (committed s') /\ unique_product_ids (committed s')
  /\ references_hold (committed s').
Proof.
  intros Hrun Hs Hi Hr Hs' Hi' Hr'.
  assert (Hcases : (exists msg pid code, r = Ok (Created msg pid, code))
                   \/ (forall msg pid code, r <> Ok (Created msg pid, code))).
  { destruct r as [[[m|m pid] code]|e]; try (right; intros; discriminate).
    left. now exists m, pid, code. }
  destruct Hcases as [(msg & pid & code & ->)|Hnot].
  2:{ destruct (failed_outcome _ _ _ _ _ _ Hrun Hnot) as ([->| ->] & _); auto. }
  destruct (created_outcome _ _ _ _ _ _ _ _ Hrun)
    as (n & k & price & wqs & rows & _ & _ & _ & _ & _ & _ & _ & _ & Hfree & Hpid
        & (Hw & _) & Hp & Hinv & Hrows & Hknown & _).
  split; [|split].
  - unfold unique_skus. rewrite Hp, map_app. apply NoDup_app; [exact Hs'| |].
    + cbn. constructor; [intros []|constructor].
    + intros a Ha [<-|[]]. apply sku_taken_in in Ha. cbn in Ha. congruence.
  - unfold unique_product_ids. rewrite Hp, map_app. apply NoDup_app; [exact Hi'| |].
    + cbn. constructor; [intros []|constructor].
    + intros a Ha [<-|[]]. cbn in Ha. apply in_map_iff in Ha.
      destruct Ha as [p [Heq Hin]]. pose proof (next_id_above product_id _ _ Hin). lia.
  - intros i Hin. unfold product_exists, warehouse_exists. rewrite Hp, Hw.
    rewrite Hinv in Hin. apply in_app_or in Hin. destruct Hin as [Hin|Hin].
    + destruct (Hr' i Hin) as [He Hwe]. split; [|exact Hwe].
      rewrite existsb_app. unfold product_exists in He. now rewrite He.
    + split.
      * rewrite existsb_app. cbn.
        rewrite Forall_forall in *. pose proof (stocks_product _ _ _ Hrows) as Hprod.
        rewrite Forall_forall in Hprod. rewrite (Hprod i Hin), Z.eqb_refl.
        now rewrite orb_true_r.
      * rewrite Forall_forall in Hknown. exact (Hknown i Hin).
Qed.

Lemma store_invariants_are_kept_witness :
  let once := snd (create_product Decimal_of_int alone
                     (widget (JList [entry (JInt 1) (JInt 5); entry (JInt 2) (JInt 7)]))
                     (new_session two_warehouses)) in
  unique_skus (committed once) /\ unique_product_ids (committed once)
  /\ references_hold (committed once).
Proof.
  intros once.
  apply (store_invariants_are_kept Decimal_of_int alone
           (widget (JList [entry (JInt 1) (JInt 5); entry (JInt 2) (JInt 7)]))
           two_warehouses _ once (surjective_pairing _));
    try (constructor; fail); intros i [].
Defined.

(** * Further properties of [low_stock_alerts] *)

(** ** What every alert says *)

(** A row of the query has its sales among the rows of the subquery. *)
Lemma row_sales {dialect : Dialect} d now company_id r :
  In r (low_stock_rows d now company_id) ->
  exists sr, of_sales r = Some sr /\ 0 < total_sales sr /\
             avg_daily_sales sr = divide (total_sales sr) RECENT_SALES_DAYS.
Proof.
  intros Hr. apply in_low_stock_rows in Hr. destruct Hr as [Hj Hw].
  apply in_joins in Hj. destruct Hj as (_ & _ & _ & _ & _ & Ho & _).
  unfold where_low_stock in Hw. rewrite !andb_true_iff in Hw. destruct Hw as [_ Hpos].
  destruct (of_sales r) as [sr|]; [|discriminate].
  apply Z.ltb_lt in Hpos. exists sr. split; [reflexivity|]. split; [assumption|].
  apply in_outerjoin_sales in Ho. destruct Ho as [[Hnone _]|[sr' [Heq [Hin _]]]];
    [discriminate|].
  inversion Heq. subst sr'. apply in_sales_subq in Hin. destruct Hin as [-> _].
  reflexivity.
Qed.

(** Every alert is about stock that is strictly below the threshold, and
    both numbers are the stored ones: a row without a quantity or without a
    threshold raises no alert, so neither default of the loop is ever
    used. *)
Theorem alerts_are_below_threshold {dialect : Dialect} d now company_id a :
  In a (alerts (fst (low_stock_alerts d now company_id))) ->
  current_stock a < threshold a /\
  exists p i,
    In p (products d) /\ In i (inventory d) /\
    inv_product_id i = product_id p /\
    product_id p = alert_product_id a /\
    inv_warehouse_id i = alert_warehouse_id a /\
    quantity i = Some (current_stock a) /\
    low_stock_thresh p = Some (threshold a).
Proof.
  intros Ha. rewrite alerts_of_rows in Ha. apply in_map_iff in Ha.
  destruct Ha as [r [<- Hr]]. apply in_low_stock_rows in Hr. destruct Hr as [Hj Hw].
  apply in_joins in Hj. destruct Hj as (Hp & Hi & Hpi & _).
  unfold where_low_stock in Hw. rewrite !andb_true_iff in Hw.
  destruct Hw as [[_ Hlt] _]. apply sql_lt_true in Hlt.
  destruct Hlt as (q & t & Hq & Ht & Hlt).
  unfold build_alert.
  cbn [select_columns row_current_stock row_threshold current_stock threshold
       alert_product_id alert_warehouse_id row_product_id row_warehouse_id].
  rewrite Hq, Ht. split; [assumption|].
  exists (of_product r), (of_inventory r). now repeat split.
Qed.

Lemma alerts_are_below_threshold_witness :
  exists a,
    In a (alerts (fst (low_stock_alerts
                         (depot (mkProduct 1 "Widget" "W-1" None (Some 10) (Some 1)) 5)
                         day_101 7)))
    /\ current_stock a < threshold a.
Proof.
  set (d := depot (mkProduct 1 "Widget" "W-1" None (Some 10) (Some 1)) 5).
  set (a := mkAlert 1 "Widget" "W-1" 1 "Main" 5 10 (Some 50)
              (mkSupplierRecord 1 "Acme" "orders@acme.example")).
  assert (Ha : In a (alerts (fst (low_stock_alerts d day_101 7)))) by (now left).
  exists a. split; [exact Ha|].
  exact (proj1 (alerts_are_below_threshold d day_101 7 a Ha)).
Defined.




(** ** What the alerts depend on *)

(** A company that has no warehouse, or that the store does not know,
    gets the empty list of alerts with status 200, not an error. *)
Theorem no_warehouse_no_alert {dialect : Dialect} d now company_id :
  company_warehouses d company_id = [] ->
  low_stock_alerts d now company_id = (mkAlerts [] 0, 200).
Proof.
  intros Hnone. unfold low_stock_alerts, results, low_stock_rows, warehouse_ids.
  rewrite Hnone. cbn [map]. cbv zeta.
  rewrite filter_none; [reflexivity|].
  intros r _. reflexivity.
Qed.

Lemma no_warehouse_no_alert_witness :
  company_warehouses (depot (mkProduct 1 "Widget" "W-1" None (Some 10) (Some 1)) 5) 8 = []
  /\ low_stock_alerts (depot (mkProduct 1 "Widget" "W-1" None (Some 10) (Some 1)) 5) day_101 8
     = (mkAlerts [] 0, 200).
Proof.
  split; [reflexivity|].
  exact (no_warehouse_no_alert
           (depot (mkProduct 1 "Widget" "W-1" None (Some 10) (Some 1)) 5) day_101 8 eq_refl).
Defined.

Lemma filter_flat_map_filter {A B} (keep : A -> bool) (f : A -> list B) (g : B -> bool) l :
  (forall x y, In y (f x) -> g y = true -> keep x = true) ->
  filter g (flat_map f (filter keep l)) = filter g (flat_map f l).
Proof.
  intros Hkeep. induction l as [|x l IH]; [reflexivity|].
  cbn [filter flat_map]. destruct (keep x) eqn:Hx.
  - cbn [flat_map]. now rewrite !filter_app, IH.
  - rewrite filter_app, IH. rewrite (filter_none g (f x)); [reflexivity|].
    intros y Hy. destruct (g y) eqn:Hg; [|reflexivity].
    rewrite (Hkeep x y Hy Hg) in Hx. discriminate.
Qed.

(** The alerts depend on the ledger through its recent sales only: ledger
    rows of another type than [sale], and sales older than the window, can
    be taken out of the store without any change to the response. *)
Theorem only_recent_sales_count {dialect : Dialect} d now company_id :
  low_stock_alerts
    (with_changes d (recent_sales d (now - timedelta_days RECENT_SALES_DAYS)))
    now company_id
  = low_stock_alerts d now company_id.
Proof.
  set (since := now - timedelta_days RECENT_SALES_DAYS).
  assert (Hrows : forall wids,
             sales_rows (with_changes d (recent_sales d since)) since wids
             = sales_rows d since wids).
  { intros wids. unfold sales_rows, with_changes, recent_sales.
    cbn [inventory_changes inventory].
    apply filter_flat_map_filter.
    intros c ci Hin Hg. apply in_map_iff in Hin. destruct Hin as [i [<- _]].
    cbn [fst snd] in Hg. apply andb_true_iff in Hg. tauto. }
  unfold low_stock_alerts, results, low_stock_rows, sales_subq. cbv zeta.
  fold since. rewrite Hrows. reflexivity.
Qed.

(** ** Products created through the handler *)

(** A product that [create_product] has just created raises no alert,
    whatever is sold of it: it is stored without a threshold, and a product
    without a threshold has no row in the query. *)
Theorem created_product_raises_no_alert {dialect : Dialect}
    Decimal_str others request_json d msg pid code s' now company_id a :
  create_product Decimal_str others request_json (new_session d)
  = (Ok (Created msg pid, code), s') ->
  In a (alerts (fst (low_stock_alerts (committed s') now company_id))) ->
  alert_product_id a <> pid.
Proof.
  intros Hrun Ha Heq.
  destruct (created_outcome _ _ _ _ _ _ _ _ Hrun)
    as (n & k & price & wqs & rows & _ & _ & _ & _ & _ & _ & _ & _ & _ & Hpid
        & _ & Hp & _).
  rewrite alerts_of_rows in Ha. apply in_map_iff in Ha. destruct Ha as [r [<- Hr]].
  destruct (alerted_threshold_is_stored _ _ _ _ Hr) as [t [Ht _]].
  apply in_low_stock_rows in Hr. destruct Hr as [Hj _].
  apply in_joins in Hj. destruct Hj as (Hin & _).
  unfold build_alert in Heq. cbn [select_columns alert_product_id row_product_id] in Heq.
  rewrite Hp in Hin. apply in_app_or in Hin. destruct Hin as [Hin|[Hin|[]]].
  - pose proof (next_id_above product_id _ _ Hin). lia.
  - rewrite <- Hin in Ht. discriminate.
Qed.

Lemma created_product_raises_no_alert_witness :
  let once := snd (create_product Decimal_of_int alone
                     (widget (JList [entry (JInt 1) (JInt 0)]))
                     (new_session (depot (mkProduct 1 "Gadget" "G-1" None (Some 1) (Some 1)) 0)))
  in
  forallb (fun a => negb (alert_product_id a =? 2))
    (alerts (fst (low_stock_alerts (committed once) day_101 7))) = true.
Proof.
  intros once. apply forallb_forall. intros a Ha. apply negb_true_iff. apply Z.eqb_neq.
  apply (created_product_raises_no_alert Decimal_of_int alone
           (widget (JList [entry (JInt 1) (JInt 0)]))
           (depot (mkProduct 1 "Gadget" "G-1" None (Some 1) (Some 1)) 0)
           "Product created" 2 201 once day_101 7 a).
  - vm_compute. reflexivity.
  - exact Ha.
Defined.

(** ** One alert for an inventory row *)

Lemma map_flat_map {A B C} (g : B -> C) (f : A -> list B) l :
  map g (flat_map f l) = flat_map (fun x => map g (f x)) l.
Proof.
  induction l as [|x l IH]; [reflexivity|]. cbn [flat_map]. now rewrite map_app, IH.
Qed.

Lemma filter_flat_map {A B} (g : B -> bool) (f : A -> list B) l :
  filter g (flat_map f l) = flat_map (fun x => filter g (f x)) l.
Proof.
  induction l as [|x l IH]; [reflexivity|]. cbn [flat_map]. now rewrite filter_app, IH.
Qed.

(** Lists with different keys, when the keys identify the rows. *)
Lemma NoDup_map_filter {A} (key : A -> Z) (f : A -> bool) l :
  NoDup (map key l) -> NoDup (map key (filter f l)).
Proof.
  induction l as [|a l IH]; intros H; [constructor|].
  cbn [map] in H. inversion H as [|? ? Hnotin Hnd]. subst.
  cbn [filter]. destruct (f a); [|now apply IH].
  cbn [map]. constructor; [|now apply IH].
  intros Hin. apply Hnotin. apply in_map_iff in Hin. destruct Hin as [x [Hx Hin]].
  apply filter_In in Hin. rewrite <- Hx. apply in_map. tauto.
Qed.

Lemma NoDup_flat_map_keys {A} (key : A -> Z) (f : A -> list Z) l :
  NoDup (map key l) ->
  (forall x, In x l -> NoDup (f x)) ->
  (forall x k, In x l -> In k (f x) -> k = key x) ->
  NoDup (flat_map f l).
Proof.
  intros Hkey Hnd Hk. induction l as [|a l IH]; [constructor|].
  cbn [map] in Hkey. inversion Hkey as [|? ? Hnotin Hkey']. subst.
  cbn [flat_map]. apply NoDup_app.
  - apply Hnd. now left.
  - apply IH; [assumption | |]; intros; [apply Hnd | apply Hk]; try (now right); assumption.
  - intros k Hin Hin'. apply in_flat_map in Hin'. destruct Hin' as [x [Hx Hkx]].
    apply Hnotin. rewrite <- (Hk a k (or_introl eq_refl) Hin).
    rewrite (Hk x k (or_intror Hx) Hkx). now apply in_map.
Qed.

(** At most one row has a given key. *)
Lemma one_by_key {A} (key : A -> Z) (k : Z) l :
  NoDup (map key l) -> (List.length (filter (fun y => (k =? key y)%Z) l) <= 1)%nat.
Proof.
  induction l as [|a l IH]; intros H; [cbn; lia|].
  cbn [map] in H. inversion H as [|? ? Hnotin Hnd]. subst.
  cbn [filter]. destruct (k =? key a) eqn:Hk; [|now apply IH].
  apply Z.eqb_eq in Hk. rewrite filter_none; [cbn; lia|].
  intros y Hy. apply Z.eqb_neq. intros Heq. apply Hnotin. rewrite <- Hk, Heq.
  now apply in_map.
Qed.

Lemma flat_map_at_most_one {A B} (f : A -> list B) l :
  (List.length l <= 1)%nat ->
  (forall x, (List.length (f x) <= 1)%nat) ->
  (List.length (flat_map f l) <= 1)%nat.
Proof.
  intros Hl Hf. destruct l as [|x [|y l]]; cbn in *; try lia.
  rewrite app_nil_r. apply Hf.
Qed.

Lemma sales_subq_keys {dialect : Dialect} d since wids :
  NoDup (map sales_inventory_id (sales_subq d since wids)).
Proof.
  unfold sales_subq. cbv zeta. rewrite map_map. cbn [sales_group sales_inventory_id].
  rewrite map_id. apply NoDup_nodup.
Qed.

(** The rows the joins give for one product and one of its inventory
    rows: none or one, when the keys of the warehouses, of the suppliers
    and of the sales identify their rows. *)
Lemma one_row_per_inventory_row d sales p i :
  NoDup (map warehouse_id (warehouses d)) ->
  NoDup (map supplier_id (suppliers d)) ->
  NoDup (map sales_inventory_id sales) ->
  (List.length
     (flat_map (fun w =>
        flat_map (fun sr =>
          map (mkJoined p i w sr)
            (filter (fun s => is_true (sql_eq (supplier_ref p) (Some (supplier_id s))))
               (suppliers d)))
          (outerjoin_sales i sales))
        (filter (fun w => (inv_warehouse_id i =? warehouse_id w)%Z) (warehouses d)))
   <= 1)%nat.
Proof.
  intros Hw Hs Hsales.
  apply flat_map_at_most_one; [now apply one_by_key|]. intros w.
  apply flat_map_at_most_one.
  - unfold outerjoin_sales.
    pose proof (one_by_key sales_inventory_id (inventory_id i) sales Hsales) as Hone.
    destruct (filter _ sales) as [|m ms]; [cbn; lia|].
    rewrite length_map. exact Hone.
  - intros sr. rewrite length_map.
    destruct (supplier_ref p) as [x|].
    + cbn [sql_eq is_true]. now apply one_by_key.
    + rewrite filter_none; [cbn; lia | reflexivity].
Qed.

Lemma at_most_one_NoDup {A} (l : list A) : (List.length l <= 1)%nat -> NoDup l.
Proof.
  destruct l as [|x [|y l]]; cbn; intros H; try lia; repeat constructor. intros [].
Qed.

(** When the keys of products, inventory rows, warehouses and suppliers
    identify their rows, the query has at most one row for an inventory
    row: no stock is alerted twice, and there are no more alerts than
    inventory rows. *)
Theorem one_alert_per_inventory_row {dialect : Dialect} d now company_id :
  NoDup (map product_id (products d)) ->
  NoDup (map inventory_id (inventory d)) ->
  NoDup (map warehouse_id (warehouses d)) ->
  NoDup (map supplier_id (suppliers d)) ->
  NoDup (map (fun r => inventory_id (of_inventory r)) (low_stock_rows d now company_id)) /\
  (List.length (alerts (fst (low_stock_alerts d now company_id)))
   <= List.length (inventory d))%nat.
Proof.
  intros Hp Hi Hw Hs.
  set (key := fun r => inventory_id (of_inventory r)).
  assert (Hnd : NoDup (map key (low_stock_rows d now company_id))).
  { unfold low_stock_rows. cbv zeta.
    set (sales := sales_subq d _ _).
    assert (Hsales : NoDup (map sales_inventory_id sales)) by apply sales_subq_keys.
    set (wids := warehouse_ids d company_id).
    unfold joins. rewrite filter_flat_map, map_flat_map.
    (* the inventory ids alerted under a product are those of rows of that
       product, each at most once *)
    assert (Hunder : forall p k,
               In k (map key
                       (filter (where_low_stock wids)
                          (flat_map (fun i =>
                             flat_map (fun w =>
                               flat_map (fun sr =>
                                 map (mkJoined p i w sr)
                                   (filter (fun s => is_true (sql_eq (supplier_ref p)
                                                                (Some (supplier_id s))))
                                      (suppliers d)))
                                 (outerjoin_sales i sales))
                               (filter (fun w => inv_warehouse_id i =? warehouse_id w)
                                  (warehouses d)))
                             (filter (fun i => inv_product_id i =? product_id p)
                                (inventory d))))) ->
               exists i, In i (inventory d) /\ inventory_id i = k
                         /\ inv_product_id i = product_id p).
    { intros p k Hk. apply in_map_iff in Hk. destruct Hk as [r [<- Hr]].
      apply filter_In in Hr. destruct Hr as [Hr _].
      apply in_flat_map in Hr. destruct Hr as [i [Hi' Hr]].
      apply filter_In in Hi'. destruct Hi' as [Hi' Hpi]. apply Z.eqb_eq in Hpi.
      apply in_flat_map in Hr. destruct Hr as [w [_ Hr]].
      apply in_flat_map in Hr. destruct Hr as [sr [_ Hr]].
      apply in_map_iff in Hr. destruct Hr as [s [<- _]].
      exists i. now repeat split. }
    (* products with different keys are alerted for different inventory rows *)
    induction (products d) as [|p ps IH]; [constructor|].
    cbn [map] in Hp. inversion Hp as [|? ? Hnotin Hp']. subst.
    cbn [flat_map]. apply NoDup_app.
    - rewrite filter_flat_map, map_flat_map.
      apply (NoDup_flat_map_keys inventory_id).
      + now apply NoDup_map_filter.
      + intros i _. apply at_most_one_NoDup. rewrite length_map.
        eapply Nat.le_trans; [apply filter_length_le|].
        now apply one_row_per_inventory_row.
      + intros i k _ Hk. apply in_map_iff in Hk. destruct Hk as [r [<- Hr]].
        apply filter_In in Hr. destruct Hr as [Hr _].
        apply in_flat_map in Hr. destruct Hr as [w [_ Hr]].
        apply in_flat_map in Hr. destruct Hr as [sr [_ Hr]].
        apply in_map_iff in Hr. destruct Hr as [s [<- _]]. reflexivity.
    - now apply IH.
    - intros k Hk Hk'. apply Hunder in Hk. destruct Hk as [i (Hi1 & Hk1 & Hp1)].
      apply in_flat_map in Hk'. destruct Hk' as [p' [Hp'in Hk']].
      apply Hunder in Hk'. destruct Hk' as [i' (Hi2 & Hk2 & Hp2)].
      assert (Heq : i = i').
      { pose proof (filter_key inventory_id _ i Hi Hi1) as Hf.
        assert (Hin : In i' (filter (fun y => inventory_id i =? inventory_id y) (inventory d))).
        { apply filter_In. split; [assumption|]. apply Z.eqb_eq. congruence. }
        rewrite Hf in Hin. destruct Hin as [Hin|[]]. exact Hin. }
      subst i'. apply Hnotin. rewrite <- Hp1, Hp2. now apply in_map. }
  split; [exact Hnd|].
  rewrite alerts_of_rows, length_map, <- (length_map key).
  rewrite <- (length_map inventory_id (inventory d)).
  apply NoDup_incl_length; [exact Hnd|].
  intros k Hk. apply in_map_iff in Hk. destruct Hk as [r [<- Hr]].
  apply in_low_stock_rows in Hr. destruct Hr as [Hj _].
  apply in_joins in Hj. destruct Hj as (_ & Hin & _).
  exact (in_map inventory_id _ _ Hin).
Qed.

Lemma one_alert_per_inventory_row_witness :
  NoDup (map (fun r => inventory_id (of_inventory r))
           (low_stock_rows (depot (mkProduct 1 "Widget" "W-1" None (Some 10) (Some 1)) 5)
              day_101 7)) /\
  (List.length
     (alerts (fst (low_stock_alerts
                     (depot (mkProduct 1 "Widget" "W-1" None (Some 10) (Some 1)) 5)%Z
                     day_101 7%Z))) <= 1)%nat.
Proof.
  apply (one_alert_per_inventory_row
           (depot (mkProduct 1 "Widget" "W-1" None (Some 10) (Some 1)) 5) day_101 7);
    cbn; (constructor; [intros [] | constructor]).
Defined.

(** ** The stock of other companies *)

Lemma filter_flat_map_restricted {A B} (g : B -> bool) (f : A -> list B)
    (join keep : A -> bool) l :
  (forall x y, In y (f x) -> g y = true -> keep x = true) ->
  filter g (flat_map f (filter join (filter keep l)))
  = filter g (flat_map f (filter join l)).
Proof.
  intros Hkeep. induction l as [|x l IH]; [reflexivity|].
  cbn [filter]. destruct (keep x) eqn:Hk; cbn [filter]; destruct (join x) eqn:Hj;
    cbn [flat_map]; rewrite ?filter_app, IH; try reflexivity.
  rewrite (filter_none g (f x)); [reflexivity|].
  intros y Hy. destruct (g y) eqn:Hg; [|reflexivity].
  rewrite (Hkeep x y Hy Hg) in Hk. discriminate.
Qed.

Lemma filter_map_restricted {A B} (g : B -> bool) (h : A -> B) (join keep : A -> bool) l :
  (forall x, g (h x) = true -> keep x = true) ->
  filter g (map h (filter join (filter keep l))) = filter g (map h (filter join l)).
Proof.
  intros Hkeep. induction l as [|x l IH]; [reflexivity|].
  cbn [filter]. destruct (keep x) eqn:Hk; cbn [filter]; destruct (join x) eqn:Hj;
    cbn [map filter]; rewrite ?IH; try reflexivity.
  destruct (g (h x)) eqn:Hg; [|reflexivity].
  rewrite (Hkeep x Hg) in Hk. discriminate.
Qed.

(** The alerts of a company are decided by the stock in its own
    warehouses: the inventory rows of all other warehouses can be taken out
    of the store without any change to the response. *)
Theorem other_stock_does_not_count {dialect : Dialect} d now company_id :
  low_stock_alerts (with_inventory d (company_inventory d company_id)) now company_id
  = low_stock_alerts d now company_id.
Proof.
  set (since := now - timedelta_days RECENT_SALES_DAYS).
  set (wids := warehouse_ids d company_id).
  assert (Hsales : sales_rows (with_inventory d (company_inventory d company_id)) since wids
                   = sales_rows d since wids).
  { unfold sales_rows, with_inventory, company_inventory.
    cbn [inventory inventory_changes]. fold wids.
    rewrite !filter_flat_map. apply flat_map_ext. intros c.
    apply filter_map_restricted. intros i Hg. cbn [fst snd] in Hg.
    apply andb_true_iff in Hg. tauto. }
  unfold low_stock_alerts, results, low_stock_rows, sales_subq. cbv zeta.
  change (warehouse_ids (with_inventory d (company_inventory d company_id)) company_id)
    with wids.
  fold since. fold wids. rewrite Hsales.
  set (sales := map _ (nodup Z.eq_dec _)).
  assert (Hrows : filter (where_low_stock wids)
                    (joins (with_inventory d (company_inventory d company_id)) sales)
                  = filter (where_low_stock wids) (joins d sales)).
  { unfold joins, with_inventory, company_inventory.
    cbn [products inventory warehouses suppliers]. fold wids.
    rewrite !filter_flat_map. apply flat_map_ext. intros p.
    apply filter_flat_map_restricted.
    intros i r Hr Hw.
    apply in_flat_map in Hr. destruct Hr as [w [_ Hr]].
    apply in_flat_map in Hr. destruct Hr as [sr [_ Hr]].
    apply in_map_iff in Hr. destruct Hr as [s [<- _]].
    unfold where_low_stock in Hw. cbn [of_inventory] in Hw.
    rewrite !andb_true_iff in Hw. tauto. }
  now rewrite Hrows.
Qed.

(** * Two more answers *)

(** A request whose SKU is free at the lookup and whose warehouse
    quantities are not a non-empty list of acceptable entries is answered
    with status 400 once the lookup has been made, and nothing is
    written. *)
Theorem bad_quantities_are_400
    Decimal_str others request_json d name k pv price quantities :
  carries (request_data request_json) name (JStr k) pv quantities ->
  Decimal_str pv = Some price ->
  sku_taken k d = false ->
  quantities_acceptable (request_data request_json) = false ->
  exists msg,
    create_product Decimal_str others request_json (new_session d)
    = (Ok (Error msg, 400), mkSession d None [] [Done SELECT_product])
    /\ (msg = "warehouse_quantities must be a non-empty list."
        \/ msg = "Each warehouse entry must have warehouse_id and non-negative integer quantity.").
Proof.
  intros Hc Hprice Hfree Hbad.
  rewrite (create_product_steps _ _ _ _ _ _ _ _ _ Hc Hprice). cbv zeta.
  rewrite (sku_free_find _ _ Hfree).
  destruct Hc as (_ & _ & _ & Hq). unfold quantities_acceptable in Hbad. rewrite Hq in Hbad.
  destruct quantities as [ | | | | | [|w ws] | ]; try (eexists; split; [reflexivity | now left]).
  apply negb_false_iff in Hbad. rewrite Hbad.
  eexists. split; [reflexivity | now right].
Qed.

Lemma bad_quantities_are_400_witness :
  quantities_acceptable (widget (JList [entry (JInt 1) (JFloat "2.5")])) = false /\
  exists msg,
    fst (create_product Decimal_of_int alone (widget (JList [entry (JInt 1) (JFloat "2.5")]))
           (new_session two_warehouses))
    = Ok (Error msg, 400).
Proof.
  split; [reflexivity|].
  destruct (bad_quantities_are_400 Decimal_of_int alone
              (widget (JList [entry (JInt 1) (JFloat "2.5")])) two_warehouses
              (JStr "Widget") "W-1" (JInt 10) (Dfinite false 10 0)
              (JList [entry (JInt 1) (JFloat "2.5")]))
    as [msg [Hrun _]].
  - repeat split.
  - reflexivity.
  - reflexivity.
  - reflexivity.
  - exists msg. rewrite Hrun. reflexivity.
Defined.

Lemma sum_negated (cs : list InventoryChange) :
  sum_Z (map (fun c => quantity_delta c * -1) cs) = - sum_Z (map quantity_delta cs).
Proof.
  unfold sum_Z. induction cs as [|c cs IH]; [reflexivity|].
  cbn [map fold_right]. rewrite IH. lia.
Qed.

(** The total of the subquery is a net figure: ledger rows of type [sale]
    with a positive delta are taken off the units sold.  When the recent
    sales of an inventory row cancel out, or more, the row raises no alert,
    however low its stock. *)
Theorem cancelled_sales_raise_no_alert {dialect : Dialect} d now company_id i :
  NoDup (map inventory_id (inventory d)) ->
  In i (inventory d) ->
  0 <= sum_Z (map quantity_delta
                (window_sales d (now - timedelta_days RECENT_SALES_DAYS) (inventory_id i))) ->
  ~ exists r, In r (low_stock_rows d now company_id) /\ of_inventory r = i.
Proof.
  intros Hkey Hi Hnet [r [Hr <-]].
  destruct (row_sales _ _ _ _ Hr) as [sr (Hsr & Hpos & _)].
  apply in_low_stock_rows in Hr. destruct Hr as [Hj Hw].
  apply in_joins in Hj. destruct Hj as (_ & _ & _ & _ & _ & Ho & _).
  unfold where_low_stock in Hw. rewrite !andb_true_iff in Hw.
  destruct Hw as [[Hin _] _]. apply in__spec in Hin.
  rewrite Hsr in Ho. apply in_outerjoin_sales in Ho.
  destruct Ho as [[Hnone _]|[sr' [Heq [Hsub Hid]]]]; [discriminate|].
  inversion Heq. subst sr'. apply in_sales_subq in Hsub. destruct Hsub as [Hrow _].
  rewrite Hrow in Hpos. cbn [sales_group total_sales] in Hpos. rewrite Hid in Hpos.
  rewrite <- (map_map fst (fun c => quantity_delta c * -1)) in Hpos.
  rewrite (grouped_rows d _ _ _ Hkey Hi Hin), sum_negated in Hpos. lia.
Qed.

Lemma cancelled_sales_raise_no_alert_witness :
  let d := with_changes (depot (mkProduct 1 "Widget" "W-1" None (Some 10) (Some 1)) 5)
             [mkInventoryChange 1 1 (-3) "sale" (timedelta_days 100);
              mkInventoryChange 2 1 3 "sale" (timedelta_days 100)] in
  0 <= sum_Z (map quantity_delta
                (window_sales d (day_101 - timedelta_days RECENT_SALES_DAYS) 1)) /\
  ~ exists r, In r (low_stock_rows d day_101 7)
              /\ of_inventory r = mkInventory 1 1 1 (Some 5).
Proof.
  intros d.
  assert (Hnet : 0 <= sum_Z (map quantity_delta
                              (window_sales d (day_101 - timedelta_days RECENT_SALES_DAYS) 1)))
    by (vm_compute; discriminate).
  split; [exact Hnet|].
  apply (cancelled_sales_raise_no_alert d day_101 7 (mkInventory 1 1 1 (Some 5))).
  - cbn. constructor; [intros [] | constructor].
  - now left.
  - exact Hnet.
Defined.
